(** * HumanMark: a shallow embedding of the forensic analysis engine

    The Go sources modelled here are
    - [internal/service/detector.go]        (orchestrator, classifier, hash)
    - [internal/service/text_analyzer.go]   (text signals, weighted score)
    - [internal/service/text_detector.go]   (text detection path)
    - [internal/service/image_analyzer.go]  (image sniffer, parsers, signals)
    - [internal/service/media_detectors.go] (image, audio, video paths)
    - the audio analyzer and the video analyzer of package [service].

    Conventions of the embedding.
    - [float64] is Rocq's primitive [float] (IEEE 754 binary64, round to
      nearest even), so every arithmetic step of the Go code is reproduced
      bit for bit; the compiler is assumed not to fuse multiply and add
      (the amd64 behaviour).
    - [int] is [Z].  Lengths are below [2^63] and atom sizes below [2^32],
      so none of the sums computed by the parsers wraps around on a 64-bit
      platform.
    - [[]byte] and [string] are [list byte].
    - An index or slice expression out of range panics in Go; here it
      yields [Panic].  Loops whose stride depends on the data run on fuel,
      and running out of it yields [OutOfFuel]. *)

From Stdlib Require Import ZArith List Bool Lia Floats.
From Stdlib Require Import Strings.Byte Strings.String Strings.Ascii.
From Stdlib Require Import Sorting.Permutation.
Import ListNotations.

Set Warnings "-inexact-float".

Local Open Scope Z_scope.

(** ** Outcomes of Go code that may panic *)

Inductive exec (A : Type) : Type :=
| Done (a : A)
| Panic
| OutOfFuel.

Arguments Done {A} a.
Arguments Panic {A}.
Arguments OutOfFuel {A}.

Definition bind {A B : Type} (m : exec A) (k : A -> exec B) : exec B :=
  match m with
  | Done a => k a
  | Panic => Panic
  | OutOfFuel => OutOfFuel
  end.

Notation "x <- m ;; k" := (bind m (fun x => k))
  (at level 61, m at next level, right associativity).
Notation "' pat <- m ;; k" := (bind m (fun x => match x with pat => k end))
  (at level 61, pat pattern, m at next level, right associativity).

(** ** Byte slices *)

Definition bytes := list byte.

(** A Go string literal as a byte slice. *)
Definition lit (s : string) : bytes := list_byte_of_string s.

Definition byteZ (b : byte) : Z := Z.of_N (Byte.to_N b).

Definition len {A : Type} (d : list A) : Z := Z.of_nat (List.length d).

(** [d[i]] *)
Definition index {A : Type} (d : list A) (i : Z) : exec A :=
  if (0 <=? i) && (i <? len d) then
    match nth_error d (Z.to_nat i) with
    | Some x => Done x
    | None => Panic
    end
  else Panic.

(** [d[lo:hi]]; the bound taken is the length, which is at most the
    capacity Go checks against. *)
Definition slice {A : Type} (d : list A) (lo hi : Z) : exec (list A) :=
  if (0 <=? lo) && (lo <=? hi) && (hi <=? len d) then
    Done (firstn (Z.to_nat (hi - lo)) (skipn (Z.to_nat lo) d))
  else Panic.

(** [min] of the video analyzer (also used by the audio analyzer). *)
Definition min (a b : Z) : Z := if a <? b then a else b.

Fixpoint bytes_eqb (a b : bytes) : bool :=
  match a, b with
  | [], [] => true
  | x :: a', y :: b' => Byte.eqb x y && bytes_eqb a' b'
  | _, _ => false
  end.

(** [bytes.HasPrefix] *)
Fixpoint hasPrefix (s p : bytes) : bool :=
  match p, s with
  | [], _ => true
  | y :: p', x :: s' => Byte.eqb x y && hasPrefix s' p'
  | _ :: _, [] => false
  end.

(** [bytes.Contains] and [strings.Contains] *)
Fixpoint contains (s sub : bytes) : bool :=
  hasPrefix s sub ||
  match s with
  | [] => false
  | _ :: s' => contains s' sub
  end.

(** ** float64 *)

Local Open Scope float_scope.

(** [float64(n)] for a non-negative [int]. *)
Definition float64 (n : Z) : float := of_uint63 (Uint63.of_Z n).

(** [math.Max] with the special cases of its documentation. *)
Definition Max (x y : float) : float :=
  if (x =? infinity) || (y =? infinity) then infinity
  else if is_nan x || is_nan y then nan
  else if (x =? 0) && (x =? y) then (if get_sign x then y else x)
  else if y <? x then x else y.

(** [math.Min] with the special cases of its documentation. *)
Definition Min (x y : float) : float :=
  if (x =? neg_infinity) || (y =? neg_infinity) then neg_infinity
  else if is_nan x || is_nan y then nan
  else if (x =? 0) && (x =? y) then (if get_sign x then x else y)
  else if x <? y then x else y.

(** [abs] of [text_detector.go]. *)
Definition abs (x : float) : float := if x <? 0 then - x else x.

(** The closing expression of every signal combiner,
    [math.Max(0, math.Min(1, score))]. *)
Definition clamp01 (score : float) : float := Max 0 (Min 1 score).

(** Membership of a float in the closed interval [[lo, hi]]. *)
Definition within (lo hi x : float) : bool := (lo <=? x) && (x <=? hi).

Local Close Scope float_scope.
Local Open Scope string_scope.
Local Open Scope list_scope.
Local Open Scope Z_scope.

(** ** Conditions that index the data

    [a &&& b] is Go's short-circuit [a && b] when the operands may panic:
    [b] is evaluated only if [a] yields [true]. *)

Definition andE (a b : exec bool) : exec bool :=
  x <- a ;; if x then b else Done false.

Definition orE (a b : exec bool) : exec bool :=
  x <- a ;; if x then Done true else b.

Notation "a &&& b" := (andE a b) (at level 40, left associativity).
Notation "a ||| b" := (orE a b) (at level 50, left associativity).

(** [d[i] == c] *)
Definition byteIs (d : bytes) (i : Z) (c : byte) : exec bool :=
  x <- index d i ;; Done (Byte.eqb x c).

(** [d[i]&mask == mask] *)
Definition byteHas (d : bytes) (i : Z) (mask : Z) : exec bool :=
  x <- index d i ;; Done (Z.land (byteZ x) mask =? mask).

(** [bytes.Equal(d[lo:hi], []byte(s))] and [string(d[lo:hi]) == s] *)
Definition sliceIs (d : bytes) (lo hi : Z) (s : string) : exec bool :=
  x <- slice d lo hi ;; Done (bytes_eqb x (lit s)).

(** ** What the embedding takes from the platform and from the run

    [Platform] holds the library functions whose tables are not reproduced
    here; they are the same in every call.  The ASCII behaviour of the
    [unicode], [strings] and [bytes] functions is modelled below, and only
    their behaviour on text holding a byte above 0x7F is taken from the
    platform. *)

Record Platform := {
  (** [math.Log2] *)
  Log2 : float -> float;
  (** [bytes.ToLower] and [strings.ToLower] on input holding a non-ASCII
      byte *)
  unicodeToLower : bytes -> bytes;
  (** [unicode.IsPunct] on runes above U+007F *)
  unicodeIsPunct : Z -> bool;
  (** [strings.TrimSpace] on input holding a non-ASCII byte *)
  unicodeTrimSpace : bytes -> bytes
}.

Definition isASCII (b : byte) : bool := byteZ b <? 0x80.

Definition asciiLower (b : byte) : byte :=
  let c := byteZ b in
  if (0x41 <=? c) && (c <=? 0x5A) then
    match Byte.of_N (Z.to_N (c + 0x20)) with
    | Some b' => b'
    | None => b
    end
  else b.

(** [bytes.ToLower] and [strings.ToLower]: the ASCII fast path of the
    library, and the platform's Unicode mapping otherwise. *)
Definition toLower (P : Platform) (s : bytes) : bytes :=
  if forallb isASCII s then map asciiLower s else unicodeToLower P s.

(** [binary.BigEndian.Uint32(b)] and its siblings; each checks the last
    index it reads before combining the bytes. *)
Definition beUint32 (b : bytes) : exec Z :=
  b3 <- index b 3 ;; b0 <- index b 0 ;; b1 <- index b 1 ;; b2 <- index b 2 ;;
  Done (Z.lor (Z.lor (Z.lor (Z.shiftl (byteZ b0) 24) (Z.shiftl (byteZ b1) 16))
                     (Z.shiftl (byteZ b2) 8)) (byteZ b3)).

Definition beUint16 (b : bytes) : exec Z :=
  b1 <- index b 1 ;; b0 <- index b 0 ;;
  Done (Z.lor (Z.shiftl (byteZ b0) 8) (byteZ b1)).

Definition leUint32 (b : bytes) : exec Z :=
  b3 <- index b 3 ;; b0 <- index b 0 ;; b1 <- index b 1 ;; b2 <- index b 2 ;;
  Done (Z.lor (Z.lor (Z.lor (byteZ b0) (Z.shiftl (byteZ b1) 8))
                     (Z.shiftl (byteZ b2) 16)) (Z.shiftl (byteZ b3) 24)).

Definition leUint16 (b : bytes) : exec Z :=
  b1 <- index b 1 ;; b0 <- index b 0 ;;
  Done (Z.lor (byteZ b0) (Z.shiftl (byteZ b1) 8)).

(** One turn of a [for] loop: go on with a new state, or [break]. *)
Inductive turn (S : Type) : Type :=
| Continue (s : S)
| Break (s : S).

Arguments Continue {S} s.
Arguments Break {S} s.

(** [for cond(s) { body }], at most [fuel] turns. *)
Fixpoint forLoop {S : Type} (fuel : nat) (cond : S -> bool)
    (body : S -> exec (turn S)) (s : S) : exec S :=
  if cond s then
    match fuel with
    | O => OutOfFuel
    | Datatypes.S fuel' =>
        t <- body s ;;
        match t with
        | Continue s' => forLoop fuel' cond body s'
        | Break s' => Done s'
        end
    end
  else Done s.

(** [for i := from; i < bound; i++ { if test(i) { ...; break } }]: the
    first index at which the test holds, if any; [n] indices are left. *)
Fixpoint firstIndex (n : nat) (i : Z) (test : Z -> exec bool)
    : exec (option Z) :=
  match n with
  | O => Done None
  | Datatypes.S n' =>
      t <- test i ;;
      if t then Done (Some i) else firstIndex n' (i + 1) test
  end.

Definition scanFor (from bound : Z) (test : Z -> exec bool)
    : exec (option Z) :=
  firstIndex (Z.to_nat (bound - from)) from test.

(** [byteSimilarity] calculates similarity between two byte slices. *)
Fixpoint countMatches (a b : bytes) : Z :=
  match a, b with
  | x :: a', y :: b' =>
      (if Byte.eqb x y then 1 else 0) + countMatches a' b'
  | _, _ => 0
  end.

Definition byteSimilarity (a b : bytes) : float :=
  if negb (len a =? len b) then 0%float
  else (float64 (countMatches a b) / float64 (len a))%float.

(** The 256 byte values in increasing order, the order of a [range] over
    the frequency table. *)
Definition byteValues : bytes :=
  Eval vm_compute in
    flat_map (fun n => match Byte.of_N (N.of_nat n) with
                       | Some b => [b]
                       | None => []
                       end) (seq 0 256).

(** The frequency table [freq] of a sample. *)
Definition frequencies (sample : bytes) : list Z :=
  map (fun b => len (filter (Byte.eqb b) sample)) byteValues.

(** The Shannon entropy, in bits, that both [analyzeColorDistribution] and
    [calculateEntropy] accumulate over the frequency table. *)
Definition entropyBits (P : Platform) (sample : bytes) : float :=
  let total := float64 (len sample) in
  fold_left
    (fun entropy f =>
       if 0 <? f then
         let p := (float64 f / total)%float in
         (entropy - p * Log2 P p)%float
       else entropy)
    (frequencies sample) 0%float.

(** [calculateEntropy] computes Shannon entropy of byte data. *)
Definition calculateEntropy (P : Platform) (data : bytes) : float :=
  if len data =? 0 then 0%float else (entropyBits P data / 8.0)%float.

(** The pairs [(l[i], l[j])] with [i < j], in the order of the nested
    loops. *)
Fixpoint pairsOf {A : Type} (l : list A) : list (A * A) :=
  match l with
  | [] => []
  | x :: rest => map (fun y => (x, y)) rest ++ pairsOf rest
  end.

(** A loop over a fixed range whose body may panic, collecting what each
    turn yields. *)
Fixpoint mapE {A B : Type} (f : A -> exec B) (l : list A) : exec (list B) :=
  match l with
  | [] => Done []
  | x :: rest => y <- f x ;; ys <- mapE f rest ;; Done (y :: ys)
  end.

(** The mean and variance steps that [analyzePatterns] and
    [analyzeBitrateConsistency] run over their entropies:
    [mean += e] then [mean /= n], [variance += diff * diff] then
    [variance /= n]. *)
Definition varianceOf (entropies : list float) : float :=
  let n := float64 (len entropies) in
  let mean :=
    (fold_left (fun acc e => (acc + e)%float) entropies 0 / n)%float in
  (fold_left (fun acc e => (acc + (e - mean) * (e - mean))%float)
     entropies 0 / n)%float.

(** The entropy of [data[start:end]], appended only [if end > start]. *)
Definition regionEntropy (P : Platform) (data : bytes) (start end_ : Z)
    : exec (list float) :=
  if start <? end_ then
    region <- slice data start end_ ;; Done [calculateEntropy P region]
  else Done [].

(** ** The four weight tables and weighted scores *)

Module TextAnalyzer.

Record TextAnalyzerWeights := {
  wSentenceVariance : float;
  wVocabularyRichness : float;
  wBurstiness : float;
  wPunctuationVariety : float;
  wAIPhraseDetection : float;
  wWordLengthVariance : float;
  wContractionsUsage : float;
  wRepetitionPenalty : float
}.

Definition DefaultWeights : TextAnalyzerWeights := {|
  wSentenceVariance := 0.15;
  wVocabularyRichness := 0.20;
  wBurstiness := 0.10;
  wPunctuationVariety := 0.10;
  wAIPhraseDetection := 0.20;
  wWordLengthVariance := 0.05;
  wContractionsUsage := 0.10;
  wRepetitionPenalty := 0.10
|}.

Record TextSignals := {
  SentenceVariance : float;
  VocabularyRichness : float;
  Burstiness : float;
  PunctuationVariety : float;
  AIPhraseScore : float;
  WordLengthVariance : float;
  ContractionsUsage : float;
  RepetitionScore : float
}.

Definition totalWeight (w : TextAnalyzerWeights) : float :=
  (wSentenceVariance w + wVocabularyRichness w + wBurstiness w +
  wPunctuationVariety w + wAIPhraseDetection w + wWordLengthVariance w +
  wContractionsUsage w + wRepetitionPenalty w)%float.

Definition calculateWeightedScore (w : TextAnalyzerWeights)
    (signals : TextSignals) : float :=
  let score :=
    (SentenceVariance signals * wSentenceVariance w +
    VocabularyRichness signals * wVocabularyRichness w +
    Burstiness signals * wBurstiness w +
    PunctuationVariety signals * wPunctuationVariety w +
    AIPhraseScore signals * wAIPhraseDetection w +
    WordLengthVariance signals * wWordLengthVariance w +
    ContractionsUsage signals * wContractionsUsage w +
    RepetitionScore signals * wRepetitionPenalty w)%float in
  let totalWeight := totalWeight w in
  let score :=
    if (0 <? totalWeight)%float then (score / totalWeight)%float else score in
  Max 0 (Min 1 score).

(** *** Tokens, sentences, runes *)

(** A byte of the class [[a-zA-Z']]. *)
Definition isWordByte (b : byte) : bool :=
  let c := byteZ b in
  ((0x41 <=? c) && (c <=? 0x5A)) || ((0x61 <=? c) && (c <=? 0x7A))
  || (c =? 0x27).

(** [tokenize]: every maximal run of word bytes, left to right.  The class
    of the regular expression is ASCII, so a rune matches exactly when it
    is one of these bytes; [cur] is the run being read, reversed. *)
Fixpoint tokenizeFrom (text : bytes) (cur : bytes) : list bytes :=
  match text with
  | [] =>
      match cur with
      | [] => []
      | _ :: _ => [rev cur]
      end
  | c :: rest =>
      if isWordByte c then tokenizeFrom rest (c :: cur)
      else
        match cur with
        | [] => tokenizeFrom rest []
        | _ :: _ => rev cur :: tokenizeFrom rest []
        end
  end.

Definition tokenize (text : bytes) : list bytes := tokenizeFrom text [].

(** A byte of [[.!?]], and one of [\s], which is [[\t\n\f\r ]]. *)
Definition isStop (b : byte) : bool :=
  let c := byteZ b in (c =? 0x2E) || (c =? 0x21) || (c =? 0x3F).

Definition isRegexpSpace (b : byte) : bool :=
  let c := byteZ b in
  (c =? 0x09) || (c =? 0x0A) || (c =? 0x0C) || (c =? 0x0D) || (c =? 0x20).

(** Where the scan of [re.Split] stands: inside a piece, inside a run of
    stops that may yet turn out to open a separator, or inside the blanks
    of a separator.  Pieces and runs are held reversed. *)
Inductive splitting : Type :=
| InPiece (piece : bytes)
| InStops (piece stops : bytes)
| InBlanks.

(** The pieces between the leftmost matches of [[.!?]+\s+].  A match
    starts at the first stop of a run of stops that a blank follows, and
    runs to the end of the blanks. *)
Fixpoint splitFrom (text : bytes) (st : splitting) : list bytes :=
  match text with
  | [] =>
      match st with
      | InPiece piece => [rev piece]
      | InStops piece stops => [rev (stops ++ piece)]
      | InBlanks => [[]]
      end
  | c :: rest =>
      match st with
      | InPiece piece =>
          if isStop c then splitFrom rest (InStops piece [c])
          else splitFrom rest (InPiece (c :: piece))
      | InStops piece stops =>
          if isStop c then splitFrom rest (InStops piece (c :: stops))
          else if isRegexpSpace c then rev piece :: splitFrom rest InBlanks
          else splitFrom rest (InPiece (c :: stops ++ piece))
      | InBlanks =>
          if isRegexpSpace c then splitFrom rest InBlanks
          else if isStop c then splitFrom rest (InStops [] [c])
          else splitFrom rest (InPiece [c])
      end
  end.

(** The ASCII white space of [strings.TrimSpace]. *)
Definition isAsciiSpace (b : byte) : bool :=
  let c := byteZ b in
  (c =? 0x09) || (c =? 0x0A) || (c =? 0x0B) || (c =? 0x0C) || (c =? 0x0D)
  || (c =? 0x20).

Fixpoint dropSpace (s : bytes) : bytes :=
  match s with
  | [] => []
  | c :: rest => if isAsciiSpace c then dropSpace rest else s
  end.

(** [strings.TrimSpace] *)
Definition TrimSpace (P : Platform) (s : bytes) : bytes :=
  if forallb isASCII s then rev (dropSpace (rev (dropSpace s)))
  else unicodeTrimSpace P s.

(** [splitSentences] splits text into sentences. *)
Definition splitSentences (P : Platform) (text : bytes) : list bytes :=
  filter (fun p => 0 <? len p)
    (map (TrimSpace P) (splitFrom text (InPiece []))).

Definition isCont (b : Z) : bool := (0x80 <=? b) && (b <=? 0xBF).

(** The runes a [range] over a string yields: UTF-8 decoded, an invalid
    byte giving U+FFFD and a step of one byte. *)
Fixpoint decodeRunes (s : list Z) : list Z :=
  match s with
  | [] => []
  | b0 :: r0 =>
      let invalid := fun _ : unit => 0xFFFD :: decodeRunes r0 in
      if b0 <? 0x80 then b0 :: decodeRunes r0
      else if (0xC2 <=? b0) && (b0 <=? 0xDF) then
        match r0 with
        | b1 :: r1 =>
            if isCont b1 then
              Z.lor (Z.shiftl (Z.land b0 0x1F) 6) (Z.land b1 0x3F)
              :: decodeRunes r1
            else invalid tt
        | [] => invalid tt
        end
      else if (0xE0 <=? b0) && (b0 <=? 0xEF) then
        match r0 with
        | b1 :: b2 :: r2 =>
            let lo := if b0 =? 0xE0 then 0xA0 else 0x80 in
            let hi := if b0 =? 0xED then 0x9F else 0xBF in
            if (lo <=? b1) && (b1 <=? hi) && isCont b2 then
              Z.lor (Z.lor (Z.shiftl (Z.land b0 0x0F) 12)
                           (Z.shiftl (Z.land b1 0x3F) 6)) (Z.land b2 0x3F)
              :: decodeRunes r2
            else invalid tt
        | _ => invalid tt
        end
      else if (0xF0 <=? b0) && (b0 <=? 0xF4) then
        match r0 with
        | b1 :: b2 :: b3 :: r3 =>
            let lo := if b0 =? 0xF0 then 0x90 else 0x80 in
            let hi := if b0 =? 0xF4 then 0x8F else 0xBF in
            if (lo <=? b1) && (b1 <=? hi) && isCont b2 && isCont b3 then
              Z.lor (Z.lor (Z.lor (Z.shiftl (Z.land b0 0x07) 18)
                                  (Z.shiftl (Z.land b1 0x3F) 12))
                           (Z.shiftl (Z.land b2 0x3F) 6)) (Z.land b3 0x3F)
              :: decodeRunes r3
            else invalid tt
        | _ => invalid tt
        end
      else invalid tt
  end.

Definition runes (text : bytes) : list Z := decodeRunes (map byteZ text).

(** The 23 punctuation characters of ASCII (categories Pc, Pd, Pe, Po and
    Ps), by code point: the symbols of category S, such as the dollar and
    plus signs, are not among them. *)
Definition asciiPunct : list Z :=
  [ 0x21; 0x22; 0x23; 0x25; 0x26; 0x27; 0x28; 0x29; 0x2A; 0x2C; 0x2D; 0x2E;
    0x2F; 0x3A; 0x3B; 0x3F; 0x40; 0x5B; 0x5C; 0x5D; 0x5F; 0x7B; 0x7D ].

Definition memZ (x : Z) (l : list Z) : bool := existsb (Z.eqb x) l.

(** [unicode.IsPunct] *)
Definition IsPunct (P : Platform) (r : Z) : bool :=
  if r <? 0x80 then memZ r asciiPunct else unicodeIsPunct P r.

(** *** Sets and counts *)

Definition memBytes (x : bytes) (l : list bytes) : bool :=
  existsb (bytes_eqb x) l.

(** The keys of a map filled in the order of [l], each once, in the order
    of their first insertion. *)
Definition keysOf (l : list bytes) : list bytes :=
  fold_left (fun acc x => if memBytes x acc then acc else acc ++ [x]) l [].

Definition distinctZ (l : list Z) : list Z :=
  fold_left (fun acc x => if memZ x acc then acc else acc ++ [x]) l [].

Definition countOcc (x : bytes) (l : list bytes) : Z :=
  len (filter (bytes_eqb x) l).

(** [strings.Count]: the non-overlapping occurrences of a non-empty
    [substr], leftmost first.  [skip] is the number of bytes still covered
    by the last occurrence. *)
Fixpoint countFrom (s substr : bytes) (skip : nat) : Z :=
  match s with
  | [] => 0
  | _ :: rest =>
      match skip with
      | S k => countFrom rest substr k
      | O =>
          if hasPrefix s substr
          then 1 + countFrom rest substr (List.length substr - 1)
          else countFrom rest substr 0
      end
  end.

Definition Count (s substr : bytes) : Z := countFrom s substr 0.

(** *** The common vocabulary *)

Definition commonWords : list string :=
  [ "a"; "an"; "the";
    "i"; "you"; "he"; "she"; "it";
    "we"; "they"; "me"; "him"; "her";
    "us"; "them"; "my"; "your"; "his";
    "its"; "our"; "their"; "this"; "that";
    "in"; "on"; "at"; "to"; "for";
    "of"; "with"; "by"; "from"; "about";
    "into"; "through"; "during"; "before"; "after";
    "and"; "or"; "but"; "so"; "yet";
    "if"; "when"; "while"; "because"; "although";
    "is"; "are"; "was"; "were"; "be";
    "been"; "being"; "have"; "has"; "had";
    "do"; "does"; "did"; "will"; "would";
    "could"; "should"; "may"; "might"; "must";
    "can"; "get"; "got"; "make"; "made";
    "not"; "no"; "yes"; "just"; "only";
    "also"; "very"; "more"; "most"; "some";
    "any"; "all"; "many"; "much"; "other";
    "such"; "than"; "then"; "now"; "here";
    "there"; "where"; "what"; "which"; "who";
    "how"; "why"; "each"; "every"; "both";
    "few"; "new"; "old"; "good"; "bad";
    "first"; "last"; "long"; "little"; "own";
    "same"; "big"; "high"; "small"; "large";
    "next"; "early"; "young"; "important"; "public";
    "able"; "man"; "woman"; "time"; "year";
    "people"; "way"; "day"; "thing"; "world";
    "life"; "hand"; "part"; "place"; "case";
    "week"; "work"; "fact"; "group"; "number";
    "night"; "point"; "home"; "water"; "room";
    "mother"; "area"; "money"; "story"; "month";
    "lot"; "right"; "study"; "book"; "eye";
    "job"; "word"; "business"; "issue"; "side";
    "kind"; "head"; "house"; "service"; "friend";
    "father"; "power"; "hour"; "game"; "line";
    "end"; "member"; "law"; "car"; "city";
    "community"; "name" ].

(** [isCommonWord] checks if a word is in the common vocabulary. *)
Definition isCommonWord (P : Platform) (word : bytes) : bool :=
  let w := toLower P word in
  existsb (fun c => bytes_eqb w (lit c)) commonWords.

(** *** Signals *)

(** [sum := 0.0; for ... { sum += x }] *)
Definition total (l : list float) : float :=
  fold_left (fun acc x => (acc + x)%float) l 0%float.

(** [v := 0.0; for ... { v += (x - mean) * (x - mean) }] *)
Definition squares (mean : float) (l : list float) : float :=
  fold_left (fun acc x => (acc + (x - mean) * (x - mean))%float) l 0%float.

(** [analyzeSentenceVariance] measures variance in sentence lengths. *)
Definition analyzeSentenceVariance (P : Platform) (text : bytes) : float :=
  let sentences := splitSentences P text in
  if len sentences <? 3 then 0.5%float else
  let lengths := map (fun s => float64 (len (tokenize s))) sentences in
  let sum := total lengths in
  let mean := (sum / float64 (len lengths))%float in
  let variance := (squares mean lengths / float64 (len lengths))%float in
  let stdDev := sqrt variance in
  let cv := if (0 <? mean)%float then (stdDev / mean)%float else 0%float in
  (1.0 - Min (cv / 0.8) 1.0)%float.

(** [analyzeVocabularyRichness] measures lexical diversity.  The count over
    the set of words does not depend on the order of the [range]. *)
Definition analyzeVocabularyRichness (P : Platform) (text : bytes) : float :=
  let words := tokenize text in
  if len words <? 10 then 0.5%float else
  let unique := keysOf (map (toLower P) words) in
  let ttr := (float64 (len unique) / float64 (len words))%float in
  let uncommonCount :=
    len (filter (fun w => negb (isCommonWord P w) && (3 <? len w)) unique) in
  let uncommonRatio :=
    (float64 uncommonCount / float64 (len unique))%float in
  let ttrScore := (1.0 - Min (ttr / 0.6) 1.0)%float in
  let aiScore := (ttrScore * 0.6 + (1.0 - uncommonRatio) * 0.4)%float in
  Max 0 (Min 1 aiScore).

(** The positions of [w] among the lowered words. *)
Fixpoint positionsFrom (w : bytes) (lowered : list bytes) (i : Z) : list Z :=
  match lowered with
  | [] => []
  | x :: rest =>
      if bytes_eqb x w then i :: positionsFrom w rest (i + 1)
      else positionsFrom w rest (i + 1)
  end.

Fixpoint gapsOf (positions : list Z) : list float :=
  match positions with
  | p0 :: ((p1 :: _) as rest) => float64 (p1 - p0) :: gapsOf rest
  | _ => []
  end.

(** [analyzeBurstiness] measures topic word clustering.  [order] is the
    order in which the [range] visits the keys of [wordPositions]; the sum
    of floats it accumulates depends on it. *)
Definition analyzeBurstiness (P : Platform)
    (order : list bytes -> list bytes) (text : bytes) : float :=
  let words := tokenize text in
  if len words <? 20 then 0.5%float else
  let lowered := map (toLower P) words in
  let content :=
    filter (fun w => (4 <? len w) && negb (isCommonWord P w)) lowered in
  let step (acc : float * Z) (w : bytes) : float * Z :=
    let positions :=
      if (4 <? len w) && negb (isCommonWord P w)
      then positionsFrom w lowered 0 else [] in
    if len positions <? 2 then acc else
    let gaps := gapsOf positions in
    let mean := (total gaps / float64 (len gaps))%float in
    let variance := (squares mean gaps / float64 (len gaps))%float in
    let totalBurstiness :=
      if (0 <? mean)%float then (fst acc + sqrt variance / mean)%float
      else fst acc in
    (totalBurstiness, snd acc + 1) in
  let '(totalBurstiness, count) :=
    fold_left step (order (keysOf content)) (0%float, 0) in
  if count =? 0 then 0.5%float else
  let avgBurstiness := (totalBurstiness / float64 count)%float in
  (1.0 - Min (avgBurstiness / 1.5) 1.0)%float.

Definition interestingPunct : list Z :=
  [ 0x21; 0x3F; 0x3B; 0x3A; 0x2D; 0x2014; 0x28; 0x29; 0x22; 0x27 ].

(** The closing formula of [analyzePunctuationVariety]. *)
Definition punctuationScore (uniquePunct variedPunct : Z) : float :=
  let varietyScore := (float64 uniquePunct / 8.0)%float in
  let interestingScore := (float64 variedPunct / 5.0)%float in
  let aiScore :=
    (1.0 - (varietyScore * 0.5 + interestingScore * 0.5))%float in
  Max 0 (Min 1 aiScore).

(** [analyzePunctuationVariety] measures punctuation diversity. *)
Definition analyzePunctuationVariety (P : Platform) (text : bytes) : float :=
  let punct := filter (IsPunct P) (runes text) in
  let totalPunct := len punct in
  if totalPunct <? 5 then 0.5%float else
  let uniquePunct := len (distinctZ punct) in
  let variedPunct := len (filter (fun p => memZ p punct) interestingPunct) in
  punctuationScore uniquePunct variedPunct.

Definition aiPhrases : list (string * float) :=
  [ ("as an ai", 1.0); ("as a language model", 1.0);
    ("i don't have personal", 0.9); ("i cannot provide", 0.8);
    ("i'm unable to", 0.7);
    ("it's important to note", 0.8); ("it is important to", 0.7);
    ("it's worth noting", 0.7); ("it should be noted", 0.7);
    ("keep in mind that", 0.6);
    ("furthermore", 0.4); ("moreover", 0.4); ("additionally", 0.4);
    ("in conclusion", 0.5); ("to summarize", 0.5); ("in summary", 0.5);
    ("overall", 0.3);
    ("i hope this helps", 0.7); ("feel free to", 0.5);
    ("don't hesitate to", 0.5); ("let me know if", 0.4);
    ("utilize", 0.3); ("facilitate", 0.3); ("leverage", 0.3);
    ("delve into", 0.6); ("dive into", 0.4); ("explore the", 0.3);
    ("here are some", 0.5); ("here's a list", 0.5);
    ("the following", 0.4) ]%float.

(** The loop of [detectAIPhrases] over the phrase table: the phrases
    detected (reversed), their total weight and their number. *)
Definition matchPhrases (lowerText : bytes) (phrases : list (string * float))
    (init : list string * float * Z) : list string * float * Z :=
  fold_left
    (fun acc phrase =>
       let '(detected, totalWeight, matchCount) := acc in
       if contains lowerText (lit (fst phrase))
       then (fst phrase :: detected, (totalWeight + snd phrase)%float,
             matchCount + 1)
       else acc)
    phrases init.

(** [detectAIPhrases] looks for common AI writing patterns. *)
Definition detectAIPhrases (P : Platform) (text : bytes)
    : float * list string :=
  let lowerText := toLower P text in
  let '(detected, totalWeight, matchCount) :=
    matchPhrases lowerText aiPhrases ([], 0%float, 0) in
  if matchCount =? 0 then (0.0%float, rev detected) else
  let wordCount := len (tokenize text) in
  let normalizedScore :=
    (totalWeight / (float64 wordCount / 100.0))%float in
  (Min normalizedScore 1.0, rev detected).

(** [analyzeWordLengthVariance] measures variance in word lengths. *)
Definition analyzeWordLengthVariance (text : bytes) : float :=
  let words := tokenize text in
  if len words <? 10 then 0.5%float else
  let lengths := map (fun w => float64 (len w)) words in
  let mean := (total lengths / float64 (len words))%float in
  let variance := (squares mean lengths / float64 (len words))%float in
  let stdDev := sqrt variance in
  let cv := if (0 <? mean)%float then (stdDev / mean)%float else 0%float in
  (1.0 - Min (cv / 0.6) 1.0)%float.

Definition contractions : list string :=
  [ "i'm"; "i'll"; "i've"; "i'd";
    "you're"; "you'll"; "you've"; "you'd";
    "he's"; "she's"; "it's"; "we're"; "they're";
    "don't"; "doesn't"; "didn't"; "won't"; "wouldn't";
    "can't"; "couldn't"; "shouldn't"; "isn't"; "aren't";
    "wasn't"; "weren't"; "haven't"; "hasn't"; "hadn't";
    "let's"; "that's"; "there's"; "here's"; "what's";
    "who's"; "how's"; "where's"; "when's" ].

(** [analyzeContractions] checks for contraction usage. *)
Definition analyzeContractions (P : Platform) (text : bytes) : float :=
  let lowerText := toLower P text in
  let wordCount := len (tokenize text) in
  if wordCount <? 20 then 0.5%float else
  let contractionCount :=
    fold_left (fun n c => n + Count lowerText (lit c)) contractions 0 in
  let contractionRate :=
    (float64 contractionCount / (float64 wordCount / 100.0))%float in
  (1.0 - Min (contractionRate / 3.0) 1.0)%float.

(** The first two words of a sentence, joined by a space and lowered, when
    it has two. *)
Definition sentenceStart (P : Platform) (sentence : bytes) : list bytes :=
  match tokenize sentence with
  | w0 :: w1 :: _ => [toLower P (w0 ++ lit " " ++ w1)]
  | _ => []
  end.

(** [analyzeRepetition] checks for repetitive patterns.  The sum over the
    map of sentence starts does not depend on the order of the [range]. *)
Definition analyzeRepetition (P : Platform) (text : bytes) : float :=
  let sentences := splitSentences P text in
  if len sentences <? 3 then 0.5%float else
  let starts := flat_map (sentenceStart P) sentences in
  let repetitions :=
    fold_left
      (fun n start =>
         let count := countOcc start starts in
         if 1 <? count then n + (count - 1) else n)
      (keysOf starts) 0 in
  let repRate := (float64 repetitions / float64 (len sentences))%float in
  Min (repRate * 2) 1.0.

Record TextAnalysisResult := {
  AIScore : float;
  Signals : TextSignals;
  DetectedAIPhrases : list string
}.

(** [Analyze] performs comprehensive text analysis.  The statistics record
    of the Go result, which no signal and no caller's decision reads, is
    left out. *)
Definition Analyze (P : Platform) (order : list bytes -> list bytes)
    (text : bytes) : TextAnalysisResult :=
  let '(aiPhraseScore, detected) := detectAIPhrases P text in
  let signals := {|
    SentenceVariance := analyzeSentenceVariance P text;
    VocabularyRichness := analyzeVocabularyRichness P text;
    Burstiness := analyzeBurstiness P order text;
    PunctuationVariety := analyzePunctuationVariety P text;
    AIPhraseScore := aiPhraseScore;
    WordLengthVariance := analyzeWordLengthVariance text;
    ContractionsUsage := analyzeContractions P text;
    RepetitionScore := analyzeRepetition P text |} in
  {| AIScore := calculateWeightedScore DefaultWeights signals;
     Signals := signals;
     DetectedAIPhrases := detected |}.

End TextAnalyzer.

Module ImageAnalyzer.

Record ImageAnalyzerWeights := {
  wMetadataScore : float;
  wColorDistribution : float;
  wEdgeConsistency : float;
  wNoisePattern : float;
  wCompressionAnalysis : float;
  wSymmetryDetection : float
}.

Definition DefaultImageWeights : ImageAnalyzerWeights := {|
  wMetadataScore := 0.25;
  wColorDistribution := 0.20;
  wEdgeConsistency := 0.15;
  wNoisePattern := 0.15;
  wCompressionAnalysis := 0.15;
  wSymmetryDetection := 0.10
|}.

Record ImageSignals := {
  MetadataScore : float;
  ColorDistribution : float;
  EdgeConsistency : float;
  NoisePattern : float;
  CompressionAnalysis : float;
  SymmetryScore : float
}.

Definition totalWeight (w : ImageAnalyzerWeights) : float :=
  (wMetadataScore w + wColorDistribution w + wEdgeConsistency w +
  wNoisePattern w + wCompressionAnalysis w + wSymmetryDetection w)%float.

Definition calculateWeightedScore (w : ImageAnalyzerWeights)
    (signals : ImageSignals) : float :=
  let score :=
    (MetadataScore signals * wMetadataScore w +
    ColorDistribution signals * wColorDistribution w +
    EdgeConsistency signals * wEdgeConsistency w +
    NoisePattern signals * wNoisePattern w +
    CompressionAnalysis signals * wCompressionAnalysis w +
    SymmetryScore signals * wSymmetryDetection w)%float in
  let totalWeight := totalWeight w in
  let score :=
    if (0 <? totalWeight)%float then (score / totalWeight)%float else score in
  Max 0 (Min 1 score).

(** [detectImageFormat] identifies the image format from magic bytes. *)
Definition detectImageFormat (data : bytes) : exec string :=
  if len data <? 8 then Done "unknown" else
  jpeg <- byteIs data 0 xff &&& byteIs data 1 xd8 &&& byteIs data 2 xff ;;
  if jpeg then Done "jpeg" else
  png <- byteIs data 0 x89 &&& byteIs data 1 x50 &&& byteIs data 2 x4e
         &&& byteIs data 3 x47 ;;
  if png then Done "png" else
  gif <- byteIs data 0 x47 &&& byteIs data 1 x49 &&& byteIs data 2 x46
         &&& byteIs data 3 x38 ;;
  if gif then Done "gif" else
  webp <- Done (12 <=? len data)
          &&& (byteIs data 0 x52 &&& byteIs data 1 x49 &&& byteIs data 2 x46
               &&& byteIs data 3 x46)
          &&& (byteIs data 8 x57 &&& byteIs data 9 x45 &&& byteIs data 10 x42
               &&& byteIs data 11 x50) ;;
  if webp then Done "webp" else
  bmp <- byteIs data 0 x42 &&& byteIs data 1 x4d ;;
  if bmp then Done "bmp" else
  Done "unknown".

Record ImageMetadata := {
  HasEXIF : bool;
  CameraMake : string;
  CameraModel : string;
  Software : string;
  DateTaken : string;
  HasGPS : bool;
  IsScreenshot : bool;
  FileFormat : string
}.

Record ImageStats := {
  Width : Z;
  Height : Z;
  BitDepth : Z;
  ColorChannels : Z;
  EstimatedColors : Z;
  AvgBrightness : float;
  Contrast : float
}.

(** [ImageMetadata{FileFormat: format}] *)
Definition newMetadata (format : string) : ImageMetadata :=
  {| HasEXIF := false; CameraMake := ""; CameraModel := ""; Software := "";
     DateTaken := ""; HasGPS := false; IsScreenshot := false;
     FileFormat := format |}.

Definition zeroStats : ImageStats :=
  {| Width := 0; Height := 0; BitDepth := 0; ColorChannels := 0;
     EstimatedColors := 0; AvgBrightness := 0; Contrast := 0 |}.

(** The first of the [names] the text contains, or the empty string. *)
Fixpoint firstContained (text : bytes) (names : list string) : string :=
  match names with
  | [] => ""
  | name :: rest =>
      if contains text (lit name) then name else firstContained text rest
  end.

(** The fields [parseJPEGMetadata] reads off an Exif segment. *)
Definition readExif (exifData : bytes) : ImageMetadata :=
  let make :=
    firstContained exifData
      ["Apple"; "Canon"; "Nikon"; "Sony"; "Samsung"; "Google"] in
  let software :=
    if contains exifData (lit "Photoshop") then "Photoshop"
    else if contains exifData (lit "GIMP") then "GIMP"
    else if contains exifData (lit "Lightroom") then "Lightroom"
    else if contains exifData (lit "DALL-E")
            || contains exifData (lit "Midjourney")
            || contains exifData (lit "Stable Diffusion")
    then "AI Generator"
    else "" in
  {| HasEXIF := true; CameraMake := make; CameraModel := "";
     Software := software; DateTaken := "";
     HasGPS := contains exifData (lit "GPS"); IsScreenshot := false;
     FileFormat := "jpeg" |}.

Definition markScreenshot (m : ImageMetadata) : ImageMetadata :=
  if String.eqb (Software m) "" && negb (HasEXIF m) then
    {| HasEXIF := HasEXIF m; CameraMake := CameraMake m;
       CameraModel := CameraModel m; Software := Software m;
       DateTaken := DateTaken m; HasGPS := HasGPS m; IsScreenshot := true;
       FileFormat := FileFormat m |}
  else m.

(** [parseJPEGMetadata] extracts EXIF data from JPEG. *)
Definition parseJPEGMetadata (data : bytes) : exec ImageMetadata :=
  let meta := newMetadata "jpeg" in
  if len data <? 12 then Done meta else
  app1 <- scanFor 0 (len data - 10)
            (fun i => byteIs data i xff &&& byteIs data (i + 1) xe1) ;;
  meta' <-
    match app1 with
    | Some i =>
        if i + 10 <? len data then
          segment <- slice data (i + 4) (len data) ;;
          if 6 <=? len segment then
            tag <- slice segment 0 4 ;;
            if bytes_eqb tag (lit "Exif") then Done (readExif segment)
            else Done meta
          else Done meta
        else Done meta
    | None => Done meta
    end ;;
  Done (markScreenshot meta').

Definition setHasEXIF (m : ImageMetadata) : ImageMetadata :=
  {| HasEXIF := true; CameraMake := CameraMake m;
     CameraModel := CameraModel m; Software := Software m;
     DateTaken := DateTaken m; HasGPS := HasGPS m;
     IsScreenshot := IsScreenshot m; FileFormat := FileFormat m |}.

Definition setSoftware (m : ImageMetadata) (software : string)
    : ImageMetadata :=
  {| HasEXIF := HasEXIF m; CameraMake := CameraMake m;
     CameraModel := CameraModel m; Software := software;
     DateTaken := DateTaken m; HasGPS := HasGPS m;
     IsScreenshot := IsScreenshot m; FileFormat := FileFormat m |}.

(** One turn of the chunk walk of [parsePNGMetadata]. *)
Definition parsePNGTurn (data : bytes) (st : Z * ImageMetadata)
    : exec (turn (Z * ImageMetadata)) :=
  let '(i, meta) := st in
  if len data <? i + 8 then Done (Break st) else
  field <- slice data i (i + 4) ;;
  chunkLen <- beUint32 field ;;
  chunkType <- slice data (i + 4) (i + 8) ;;
  let m1 :=
    if bytes_eqb chunkType (lit "tEXt") || bytes_eqb chunkType (lit "iTXt")
    then setHasEXIF meta else meta in
  m2 <-
    (if (0 <? chunkLen) && (i + 8 + chunkLen <? len data) then
       chunkData <- slice data (i + 8) (i + 8 + chunkLen) ;;
       if contains chunkData (lit "DALL-E")
          || contains chunkData (lit "Midjourney")
          || contains chunkData (lit "Stable Diffusion")
          || contains chunkData (lit "ComfyUI")
       then Done (setSoftware m1 "AI Generator")
       else Done m1
     else Done m1) ;;
  Done (Continue (i + (12 + chunkLen), m2)).

(** [parsePNGMetadata] extracts metadata from PNG. *)
Definition parsePNGMetadata (data : bytes) : exec ImageMetadata :=
  st <- forLoop (List.length data) (fun st => fst st <? len data - 8)
          (parsePNGTurn data) (8, newMetadata "png") ;;
  Done (snd st).

(** [extractMetadata] parses image metadata. *)
Definition extractMetadata (data : bytes) (format : string)
    : exec ImageMetadata :=
  if String.eqb format "jpeg" then parseJPEGMetadata data
  else if String.eqb format "png" then parsePNGMetadata data
  else Done (newMetadata format).

(** [getJPEGStats] extracts dimensions from JPEG. *)
Definition getJPEGStats (data : bytes) : exec ImageStats :=
  sof <- scanFor 0 (len data - 10)
           (fun i =>
              byteIs data i xff
              &&& (byteIs data (i + 1) xc0 ||| byteIs data (i + 1) xc2)) ;;
  match sof with
  | Some i =>
      if i + 9 <? len data then
        depth <- index data (i + 4) ;;
        h <- slice data (i + 5) (i + 7) ;;
        height <- beUint16 h ;;
        w <- slice data (i + 7) (i + 9) ;;
        width <- beUint16 w ;;
        channels <- index data (i + 9) ;;
        Done {| Width := width; Height := height; BitDepth := byteZ depth;
                ColorChannels := byteZ channels; EstimatedColors := 0;
                AvgBrightness := 0; Contrast := 0 |}
      else Done zeroStats
  | None => Done zeroStats
  end.

(** [getPNGStats] extracts dimensions from PNG. *)
Definition getPNGStats (data : bytes) : exec ImageStats :=
  if 24 <=? len data then
    w <- slice data 16 20 ;;
    width <- beUint32 w ;;
    h <- slice data 20 24 ;;
    height <- beUint32 h ;;
    depth <-
      (if 25 <=? len data then d <- index data 24 ;; Done (byteZ d)
       else Done 0) ;;
    Done {| Width := width; Height := height; BitDepth := depth;
            ColorChannels := 0; EstimatedColors := 0;
            AvgBrightness := 0; Contrast := 0 |}
  else Done zeroStats.

(** [getImageStats] calculates basic image statistics. *)
Definition getImageStats (data : bytes) (format : string) : exec ImageStats :=
  if String.eqb format "jpeg" then getJPEGStats data
  else if String.eqb format "png" then getPNGStats data
  else Done zeroStats.

(** [analyzeMetadata] scores based on metadata presence. *)
Definition analyzeMetadata (meta : ImageMetadata) : float :=
  let score := 0.5%float in
  let score :=
    if HasEXIF meta then (score - 0.2)%float else (score + 0.2)%float in
  let score :=
    if negb (String.eqb (CameraMake meta) "") then (score - 0.2)%float
    else score in
  let score := if HasGPS meta then (score - 0.2)%float else score in
  let score :=
    if String.eqb (Software meta) "AI Generator" then (score + 0.4)%float
    else score in
  let score := if IsScreenshot meta then (score + 0.1)%float else score in
  Max 0 (Min 1 score).

(** [analyzeColorDistribution] checks color histogram patterns. *)
Definition analyzeColorDistribution (P : Platform) (data : bytes)
    (format : string) : exec float :=
  if len data <? 1000 then Done 0.5%float else
  let startOffset := if String.eqb format "png" then 50 else 100 in
  if len data <? startOffset + 1000 then Done 0.5%float else
  sample <- slice data startOffset (startOffset + 1000) ;;
  let normalizedEntropy := (entropyBits P sample / 8.0)%float in
  if (normalizedEntropy <? 0.6)%float || (0.98 <? normalizedEntropy)%float
  then Done 0.7%float
  else Done 0.4%float.

(** One turn of the sampling loop of [analyzeEdgeConsistency]. *)
Definition sampleTurn (data : bytes) (st : Z * list bytes)
    : exec (turn (Z * list bytes)) :=
  let '(i, samples) := st in
  sample <- slice data i (i + 256) ;;
  Done (Continue (i + len data / 12, samples ++ [sample])).

(** [analyzeEdgeConsistency] looks for edge artifacts.  The two loops over
    pairs of samples index [samples] below its length. *)
Definition analyzeEdgeConsistency (data : bytes) (format : string)
    : exec float :=
  if len data <? 5000 then Done 0.5%float else
  st <- forLoop 10
          (fun st => (fst st <? len data - 256) && (len (snd st) <? 10))
          (sampleTurn data) (1000, []) ;;
  let samples := snd st in
  if len samples <? 3 then Done 0.5%float else
  let similarityCount :=
    len (filter (fun p => (0.9 <? byteSimilarity (fst p) (snd p))%float)
           (pairsOf samples)) in
  let similarityRatio :=
    (float64 similarityCount
     / float64 (len samples * (len samples - 1) / 2))%float in
  if (0.3 <? similarityRatio)%float then Done 0.7%float else Done 0.4%float.

(** The variance of one window of [analyzeNoisePattern]. *)
Definition windowVariance (window : bytes) : float :=
  let values := map (fun b => float64 (byteZ b)) window in
  let sum := fold_left (fun acc x => (acc + x)%float) values 0%float in
  let mean := (sum / float64 (len window))%float in
  let variance :=
    fold_left (fun acc x => (acc + (x - mean) * (x - mean))%float) values
      0%float in
  (variance / float64 (len window))%float.

Definition noiseTurn (sample : bytes) (st : Z * list float)
    : exec (turn (Z * list float)) :=
  let '(i, variances) := st in
  window <- slice sample i (i + 16) ;;
  Done (Continue (i + 16, variances ++ [windowVariance window])).

(** [analyzeNoisePattern] checks for natural sensor noise. *)
Definition analyzeNoisePattern (data : bytes) (format : string)
    : exec float :=
  if len data <? 2000 then Done 0.5%float else
  if len data <? 500 + 1000 then Done 0.5%float else
  sample <- slice data 500 (500 + 1000) ;;
  st <- forLoop (List.length sample) (fun st => fst st <? len sample - 16)
          (noiseTurn sample) (0, []) ;;
  let variances := snd st in
  if len variances =? 0 then Done 0.5%float else
  let avgVariance :=
    (fold_left (fun acc v => (acc + v)%float) variances 0
     / float64 (len variances))%float in
  let varianceOfVariance :=
    (fold_left
       (fun acc v => (acc + (v - avgVariance) * (v - avgVariance))%float)
       variances 0
     / float64 (len variances))%float in
  let noiseCV := (sqrt varianceOfVariance / (avgVariance + 1))%float in
  if (avgVariance <? 10)%float then Done 0.7%float
  else if (2.0 <? noiseCV)%float then Done 0.6%float
  else Done 0.4%float.

(** [sum := 0; for j := from; j < to; j++ { sum += int(data[j]) }] *)
Fixpoint sumBytes (n : nat) (data : bytes) (j : Z) (sum : Z) : exec Z :=
  match n with
  | O => Done sum
  | S n' => b <- index data j ;; sumBytes n' data (j + 1) (sum + byteZ b)
  end.

(** [analyzeCompression] checks compression artifacts. *)
Definition analyzeCompression (data : bytes) (format : string) : exec float :=
  if negb (String.eqb format "jpeg") then Done 0.5%float else
  dqt <- scanFor 0 (len data - 100)
           (fun i => byteIs data i xff &&& byteIs data (i + 1) xdb) ;;
  match dqt with
  | Some i =>
      if i + 69 <? len data then
        sum <- sumBytes 64 data (i + 5) 0 ;;
        if sum <? 200 then Done 0.7%float
        else if 3000 <? sum then Done 0.6%float
        else Done 0.4%float
      else Done 0.5%float
  | None => Done 0.5%float
  end.

(** [analyzeSymmetry] detects unnatural symmetry. *)
Definition analyzeSymmetry (data : bytes) (format : string) : exec float :=
  if len data <? 2000 then Done 0.5%float else
  let mid := len data / 2 in
  if len data <? mid + 500 then Done 0.5%float else
  sample1 <- slice data 100 600 ;;
  sample2 <- slice data mid (mid + 500) ;;
  if (0.7 <? byteSimilarity sample1 sample2)%float then Done 0.7%float
  else Done 0.4%float.

Record ImageAnalysisResult := {
  AIScore : float;
  Signals : ImageSignals;
  Metadata : ImageMetadata;
  Stats : ImageStats
}.

(** [Analyze] performs forensic analysis on image data. *)
Definition Analyze (P : Platform) (data : bytes) : exec ImageAnalysisResult :=
  format <- detectImageFormat data ;;
  metadata <- extractMetadata data format ;;
  stats <- getImageStats data format ;;
  color <- analyzeColorDistribution P data format ;;
  edge <- analyzeEdgeConsistency data format ;;
  noise <- analyzeNoisePattern data format ;;
  compression <- analyzeCompression data format ;;
  symmetry <- analyzeSymmetry data format ;;
  let signals := {|
    MetadataScore := analyzeMetadata metadata;
    ColorDistribution := color;
    EdgeConsistency := edge;
    NoisePattern := noise;
    CompressionAnalysis := compression;
    SymmetryScore := symmetry |} in
  Done {| AIScore := calculateWeightedScore DefaultImageWeights signals;
          Signals := signals; Metadata := metadata; Stats := stats |}.

End ImageAnalyzer.

Module AudioAnalyzer.

Record AudioAnalyzerWeights := {
  wMetadataScore : float;
  wFormatAnalysis : float;
  wPatternAnalysis : float;
  wQualityIndicators : float;
  wAISignatures : float;
  wNoiseProfile : float
}.

Definition DefaultAudioWeights : AudioAnalyzerWeights := {|
  wMetadataScore := 0.25;
  wFormatAnalysis := 0.15;
  wPatternAnalysis := 0.20;
  wQualityIndicators := 0.15;
  wAISignatures := 0.15;
  wNoiseProfile := 0.10
|}.

Record AudioSignals := {
  MetadataScore : float;
  FormatAnalysis : float;
  PatternAnalysis : float;
  QualityIndicators : float;
  AISignatures : float;
  NoiseProfile : float
}.

Definition totalWeight (w : AudioAnalyzerWeights) : float :=
  (wMetadataScore w + wFormatAnalysis w + wPatternAnalysis w +
  wQualityIndicators w + wAISignatures w + wNoiseProfile w)%float.

Definition calculateWeightedScore (w : AudioAnalyzerWeights)
    (signals : AudioSignals) : float :=
  let score :=
    (MetadataScore signals * wMetadataScore w +
    FormatAnalysis signals * wFormatAnalysis w +
    PatternAnalysis signals * wPatternAnalysis w +
    QualityIndicators signals * wQualityIndicators w +
    AISignatures signals * wAISignatures w +
    NoiseProfile signals * wNoiseProfile w)%float in
  let totalWeight := totalWeight w in
  let score :=
    if (0 <? totalWeight)%float then (score / totalWeight)%float else score in
  Max 0 (Min 1 score).

(** [detectAudioFormat] identifies the audio format from magic bytes. *)
Definition detectAudioFormat (data : bytes) : exec string :=
  if len data <? 12 then Done "unknown" else
  sync <- byteIs data 0 xff &&& byteHas data 1 0xE0 ;;
  if sync then Done "mp3" else
  id3 <- byteIs data 0 "I" &&& byteIs data 1 "D" &&& byteIs data 2 "3" ;;
  if id3 then Done "mp3" else
  wav <- sliceIs data 0 4 "RIFF" &&& sliceIs data 8 12 "WAVE" ;;
  if wav then Done "wav" else
  flac <- sliceIs data 0 4 "fLaC" ;;
  if flac then Done "flac" else
  ogg <- sliceIs data 0 4 "OggS" ;;
  if ogg then Done "ogg" else
  ftyp <- Done (8 <=? len data) &&& sliceIs data 4 8 "ftyp" ;;
  if ftyp then
    if 12 <=? len data then
      brand <- slice data 8 12 ;;
      if bytes_eqb brand (lit "M4A ") || bytes_eqb brand (lit "mp42")
         || bytes_eqb brand (lit "isom")
      then Done "m4a" else Done "m4a"
    else Done "m4a"
  else
  adts <- byteIs data 0 xff &&& byteHas data 1 0xF0 ;;
  if adts then Done "aac" else
  Done "unknown".

Record AudioMetadata := {
  Format : string;
  SampleRate : Z;
  Channels : Z;
  BitDepth : Z;
  Bitrate : Z;
  Duration : float;
  HasID3 : bool;
  Artist : bytes;
  Title : bytes;
  EncoderName : bytes;
  IsAIMarked : bool;
  HasRecording : bool
}.

Record AudioStats := {
  FileSize : Z;
  EstimatedFrames : Z;
  SilenceRatio : float;
  PeakAmplitude : float;
  DynamicRange : float
}.

(** [AudioMetadata{Format: format}] *)
Definition newMetadata (format : string) : AudioMetadata :=
  {| Format := format; SampleRate := 0; Channels := 0; BitDepth := 0;
     Bitrate := 0; Duration := 0; HasID3 := false; Artist := [];
     Title := []; EncoderName := []; IsAIMarked := false;
     HasRecording := false |}.

(** [AudioStats{FileSize: int64(len(data))}] *)
Definition newStats (fileSize : Z) : AudioStats :=
  {| FileSize := fileSize; EstimatedFrames := 0; SilenceRatio := 0;
     PeakAmplitude := 0; DynamicRange := 0 |}.

(** [containsAIAudioMarker] checks for AI audio generator markers. *)
Definition aiAudioMarkers : list string :=
  [ "elevenlabs"; "eleven labs"; "murf"; "play.ht";
    "resemble"; "descript"; "synthesia"; "wellsaid";
    "suno"; "udio"; "musicgen"; "riffusion";
    "ai generated"; "ai-generated"; "synthetic voice";
    "text to speech"; "text-to-speech"; "tts";
    "voice clone"; "cloned voice" ].

Definition containsAIAudioMarker (P : Platform) (s : bytes) : bool :=
  let lower := toLower P s in
  existsb (fun marker => contains lower (lit marker)) aiAudioMarkers.

(** [containsRecordingMarker] checks for real recording indicators. *)
Definition recordingMarkers : list string :=
  [ "recorded"; "recording"; "studio"; "microphone";
    "live"; "concert"; "session"; "interview";
    "iphone"; "android"; "voice memo" ].

Definition containsRecordingMarker (P : Platform) (s : bytes) : bool :=
  let lower := toLower P s in
  existsb (fun marker => contains lower (lit marker)) recordingMarkers.

(** The map literal of [extractAudioEncoder]. *)
Definition encoders : list (string * string) :=
  [ ("lame", "LAME"); ("ffmpeg", "ffmpeg"); ("audacity", "Audacity");
    ("adobe", "Adobe Audition"); ("logic", "Logic Pro");
    ("pro tools", "Pro Tools"); ("ableton", "Ableton Live");
    ("fl studio", "FL Studio"); ("elevenlabs", "ElevenLabs");
    ("suno", "Suno AI"); ("udio", "Udio") ].

(** An iteration order of the map, as for the video encoders. *)
Definition iteration := list (string * string).

Definition validIteration (order : iteration) : Prop :=
  Permutation order encoders.

Fixpoint firstEncoder (lower : bytes) (order : iteration) : bytes :=
  match order with
  | [] => []
  | (key, name) :: rest =>
      if contains lower (lit key) then lit name else firstEncoder lower rest
  end.

(** [extractAudioEncoder] tries to find encoder name. *)
Definition extractAudioEncoder (P : Platform) (order : iteration) (s : bytes)
    : bytes :=
  firstEncoder (toLower P s) order.

(** What [analyzeMP3] reads off an ID3v2 tag: [HasID3], [IsAIMarked],
    [EncoderName] and [HasRecording]. *)
Definition readID3v2 (P : Platform) (order : iteration) (data : bytes)
    : exec (bool * bool * bytes * bool) :=
  tagged <- Done (10 <? len data) &&& byteIs data 0 "I"
            &&& byteIs data 1 "D" &&& byteIs data 2 "3" ;;
  if tagged then
    b6 <- index data 6 ;; b7 <- index data 7 ;;
    b8 <- index data 8 ;; b9 <- index data 9 ;;
    let id3Size :=
      Z.lor (Z.lor (Z.lor (Z.shiftl (byteZ b6) 21) (Z.shiftl (byteZ b7) 14))
                   (Z.shiftl (byteZ b8) 7)) (byteZ b9) in
    if (0 <? id3Size) && (id3Size + 10 <? len data) then
      id3Data <- slice data 10 (10 + id3Size) ;;
      Done (true, containsAIAudioMarker P id3Data,
            extractAudioEncoder P order id3Data,
            containsRecordingMarker P id3Data)
    else Done (true, false, [], false)
  else Done (false, false, [], false).

Definition sampleRates : list Z := [44100; 48000; 32000; 0].

Definition bitrates : list Z :=
  [0; 32; 40; 48; 56; 64; 80; 96; 112; 128; 160; 192; 224; 256; 320; 0].

(** What [analyzeMP3] reads off the first frame header: [SampleRate],
    [Channels] and [Bitrate]. *)
Definition readFrame (data : bytes) : exec (Z * Z * Z) :=
  sync <- scanFor 0 (len data - 4)
            (fun i => byteIs data i xff &&& byteHas data (i + 1) 0xE0) ;;
  match sync with
  | Some i =>
      field <- slice data i (i + 4) ;;
      header <- beUint32 field ;;
      let bitrateIdx := Z.land (Z.shiftr header 12) 0x0F in
      let srIdx := Z.land (Z.shiftr header 10) 0x03 in
      let channelMode := Z.land (Z.shiftr header 6) 0x03 in
      sampleRate <-
        (if srIdx <? 3 then index sampleRates srIdx else Done 0) ;;
      let channels := if channelMode =? 3 then 1 else 2 in
      bitrate <-
        (if bitrateIdx <? 15 then index bitrates bitrateIdx else Done 0) ;;
      Done (sampleRate, channels, bitrate)
  | None => Done (0, 0, 0)
  end.

(** [analyzeMP3] extracts metadata from MP3 files. *)
Definition analyzeMP3 (P : Platform) (order : iteration) (data : bytes)
    : exec (AudioMetadata * AudioStats) :=
  '(hasID3v2, isAIMarked, encoderName, hasRecording) <-
    readID3v2 P order data ;;
  '(sampleRate, channels, bitrate) <- readFrame data ;;
  hasID3v1 <-
    (if 128 <=? len data
     then sliceIs data (len data - 128) (len data - 125) "TAG"
     else Done false) ;;
  Done ({| Format := "mp3"; SampleRate := sampleRate; Channels := channels;
           BitDepth := 0; Bitrate := bitrate; Duration := 0;
           HasID3 := hasID3v2 || hasID3v1; Artist := []; Title := [];
           EncoderName := encoderName; IsAIMarked := isAIMarked;
           HasRecording := hasRecording |},
        newStats (len data)).

(** What [analyzeWAV] reads off the [fmt ] chunk: [EncoderName],
    [Channels], [SampleRate] and [BitDepth]. *)
Definition readFmt (data : bytes) : exec (bytes * Z * Z * Z) :=
  fmt <- sliceIs data 12 16 "fmt " ;;
  if fmt then
    f <- slice data 20 22 ;; audioFormat <- leUint16 f ;;
    c <- slice data 22 24 ;; channels <- leUint16 c ;;
    r <- slice data 24 28 ;; sampleRate <- leUint32 r ;;
    d <- slice data 34 36 ;; bitDepth <- leUint16 d ;;
    Done (if audioFormat =? 1 then lit "PCM" else [], channels, sampleRate,
          bitDepth)
  else Done ([], 0, 0, 0).

(** What [analyzeWAV] reads off the first [LIST] chunk: [IsAIMarked] and
    [HasRecording]. *)
Definition readList (P : Platform) (data : bytes) : exec (bool * bool) :=
  found <- scanFor 36 (len data - 8)
             (fun i => sliceIs data i (i + 4) "LIST") ;;
  match found with
  | Some i =>
      field <- slice data (i + 4) (i + 8) ;;
      chunkSize <- leUint32 field ;;
      if i + 8 + chunkSize <=? len data then
        listData <- slice data (i + 8) (i + 8 + chunkSize) ;;
        Done (containsAIAudioMarker P listData,
              containsRecordingMarker P listData)
      else Done (false, false)
  | None => Done (false, false)
  end.

(** [analyzeWAV] extracts metadata from WAV files. *)
Definition analyzeWAV (P : Platform) (data : bytes)
    : exec (AudioMetadata * AudioStats) :=
  if len data <? 44 then Done (newMetadata "wav", newStats (len data)) else
  '(encoderName, channels, sampleRate, bitDepth) <- readFmt data ;;
  '(isAIMarked, hasRecording) <- readList P data ;;
  Done ({| Format := "wav"; SampleRate := sampleRate; Channels := channels;
           BitDepth := bitDepth; Bitrate := 0; Duration := 0;
           HasID3 := false; Artist := []; Title := [];
           EncoderName := encoderName; IsAIMarked := isAIMarked;
           HasRecording := hasRecording |},
        newStats (len data)).

Definition setComment (m : AudioMetadata) (marked : bool) (encoder : bytes)
    : AudioMetadata :=
  {| Format := Format m; SampleRate := SampleRate m; Channels := Channels m;
     BitDepth := BitDepth m; Bitrate := Bitrate m; Duration := Duration m;
     HasID3 := HasID3 m; Artist := Artist m; Title := Title m;
     EncoderName := encoder; IsAIMarked := IsAIMarked m || marked;
     HasRecording := HasRecording m |}.

(** One turn of the metadata block walk of [analyzeFLAC]; [order i] is the
    iteration order of the encoder map at the block at offset [i]. *)
Definition flacTurn (P : Platform) (order : Z -> iteration) (data : bytes)
    (st : Z * AudioMetadata) : exec (turn (Z * AudioMetadata)) :=
  let '(i, meta) := st in
  b0 <- index data i ;;
  let blockType := Z.land (byteZ b0) 0x7F in
  let isLast := negb (Z.land (byteZ b0) 0x80 =? 0) in
  b1 <- index data (i + 1) ;;
  b2 <- index data (i + 2) ;;
  b3 <- index data (i + 3) ;;
  let blockSize :=
    Z.lor (Z.lor (Z.shiftl (byteZ b1) 16) (Z.shiftl (byteZ b2) 8))
          (byteZ b3) in
  meta' <-
    (if (blockType =? 4) && (i + 4 + blockSize <=? len data) then
       commentData <- slice data (i + 4) (i + 4 + blockSize) ;;
       Done (setComment meta (containsAIAudioMarker P commentData)
               (extractAudioEncoder P (order i) commentData))
     else Done meta) ;;
  let next := (i + (4 + blockSize), meta') in
  if isLast then Done (Break next) else Done (Continue next).

(** [analyzeFLAC] extracts metadata from FLAC files. *)
Definition analyzeFLAC (P : Platform) (order : Z -> iteration) (data : bytes)
    : exec (AudioMetadata * AudioStats) :=
  if len data <? 42 then Done (newMetadata "flac", newStats (len data)) else
  sampleRate <-
    (if 22 <=? len data then
       b18 <- index data 18 ;; b19 <- index data 19 ;;
       b20 <- index data 20 ;;
       Done (Z.lor (Z.lor (Z.shiftl (byteZ b18) 12) (Z.shiftl (byteZ b19) 4))
                   (Z.shiftr (byteZ b20) 4))
     else Done 0) ;;
  channels <-
    (if 21 <=? len data then
       b20 <- index data 20 ;;
       Done (Z.land (Z.shiftr (byteZ b20) 1) 0x07 + 1)
     else Done 0) ;;
  bitDepth <-
    (if 22 <=? len data then
       b20 <- index data 20 ;; b21 <- index data 21 ;;
       Done (Z.lor (Z.shiftl (Z.land (byteZ b20) 0x01) 4)
                   (Z.land (Z.shiftr (byteZ b21) 4) 0x0F) + 1)
     else Done 0) ;;
  let meta := {|
    Format := "flac"; SampleRate := sampleRate; Channels := channels;
    BitDepth := bitDepth; Bitrate := 0; Duration := 0; HasID3 := false;
    Artist := []; Title := []; EncoderName := []; IsAIMarked := false;
    HasRecording := false |} in
  st <- forLoop (List.length data)
          (fun st => (fst st <? len data - 4) && (fst st <? 10000))
          (flacTurn P order data) (4, meta) ;;
  Done (snd st, newStats (len data)).

(** [analyzeOGG] extracts metadata from OGG files. *)
Definition analyzeOGG (P : Platform) (data : bytes)
    : exec (AudioMetadata * AudioStats) :=
  head <- slice data 0 (min (len data) 1000) ;;
  let vorbis := contains head (lit "vorbis") in
  head' <- slice data 0 (min (len data) 1000) ;;
  let opus := contains head' (lit "OpusHead") in
  isAIMarked <-
    (if 500 <? len data then
       headerData <- slice data 0 (min (len data) 5000) ;;
       Done (containsAIAudioMarker P headerData)
     else Done false) ;;
  Done ({| Format := if opus then "opus" else "ogg"; SampleRate := 0;
           Channels := 0; BitDepth := 0; Bitrate := 0; Duration := 0;
           HasID3 := false; Artist := []; Title := [];
           EncoderName :=
             if opus then lit "Opus"
             else if vorbis then lit "Vorbis" else [];
           IsAIMarked := isAIMarked; HasRecording := false |},
        newStats (len data)).

(** [analyzeM4A] extracts metadata from M4A/AAC files. *)
Definition analyzeM4A (P : Platform) (order : iteration) (data : bytes)
    : exec (AudioMetadata * AudioStats) :=
  searchData <- slice data 0 (min (len data) 10000) ;;
  Done ({| Format := "m4a"; SampleRate := 0; Channels := 0; BitDepth := 0;
           Bitrate := 0; Duration := 0; HasID3 := false; Artist := [];
           Title := [];
           EncoderName := extractAudioEncoder P order searchData;
           IsAIMarked := containsAIAudioMarker P searchData;
           HasRecording := false |},
        newStats (len data)).

Definition aiTools : list string :=
  [ "elevenlabs"; "eleven labs"; "murf"; "play.ht";
    "resemble"; "descript"; "synthesia"; "wellsaid";
    "amazon polly"; "google tts"; "azure speech";
    "suno"; "udio"; "musicgen"; "riffusion" ].

(** [analyzeMetadata] scores based on metadata presence. *)
Definition analyzeMetadata (P : Platform) (meta : AudioMetadata) : float :=
  let score := 0.5%float in
  let score := if IsAIMarked meta then (score + 0.35)%float else score in
  let score := if HasRecording meta then (score - 0.2)%float else score in
  let score := if HasID3 meta then (score - 0.1)%float else score in
  let encoderLower := toLower P (EncoderName meta) in
  let score :=
    if existsb (fun tool => contains encoderLower (lit tool)) aiTools
    then (score + 0.3)%float else score in
  Max 0 (Min 1 score).

Definition standardRates : list Z := [44100; 48000; 96000; 22050; 16000].

(** [analyzeFormat] checks format-specific indicators. *)
Definition analyzeFormat (meta : AudioMetadata) (data : bytes) : float :=
  let score := 0.5%float in
  let score :=
    if (0 <? SampleRate meta)
       && negb (existsb (Z.eqb (SampleRate meta)) standardRates)
    then (score + 0.1)%float else score in
  let score :=
    if (96000 <=? SampleRate meta) && (24 <=? BitDepth meta)
    then (score + 0.1)%float else score in
  if Channels meta =? 1 then (score + 0.1)%float else score.

(** [analyzePatterns] looks for unusual patterns in audio data. *)
Definition analyzePatterns (P : Platform) (data : bytes) (format : string)
    : exec float :=
  if len data <? 5000 then Done 0.5%float else
  let regionSize := len data / 5 in
  found <- mapE (fun i =>
                   let start := i * regionSize in
                   regionEntropy P data start
                     (start + min 2000 (len data - start)))
             [1; 2; 3; 4] ;;
  let entropies := List.concat found in
  if len entropies <? 2 then Done 0.5%float else
  if (0.05 <? varianceOf entropies)%float then Done 0.6%float
  else Done 0.4%float.

(** [analyzeQuality] evaluates audio quality indicators. *)
Definition analyzeQuality (meta : AudioMetadata) (stats : AudioStats)
    : float :=
  let score := 0.5%float in
  let score :=
    if (0 <? Bitrate meta) && (Bitrate meta <? 64) then (score + 0.1)%float
    else score in
  let score := if 320 <? Bitrate meta then (score + 0.1)%float else score in
  if (0 <? FileSize stats) && (FileSize stats <? 10000)
  then (score + 0.2)%float else score.

Definition aiMarkers : list string :=
  [ "elevenlabs"; "murf.ai"; "play.ht"; "resemble.ai";
    "suno"; "udio"; "generated"; "synthetic"; "ai voice";
    "text-to-speech"; "tts"; "voice clone" ].

(** [detectAISignatures] looks for known AI audio signatures. *)
Definition detectAISignatures (P : Platform) (data : bytes)
    (meta : AudioMetadata) : exec float :=
  let score := 0.0%float in
  searchData <- slice data 0 (min (len data) 50000) ;;
  let score :=
    if existsb (fun marker => contains (toLower P searchData) (lit marker))
         aiMarkers
    then (score + 0.3)%float else score in
  let score := if IsAIMarked meta then (score + 0.4)%float else score in
  Done (Min 1 score).

(** One turn of the window loop of [analyzeNoiseProfile]. *)
Definition repeatTurn (sample : bytes) (st : Z * Z) : exec (turn (Z * Z)) :=
  let '(i, repeatCount) := st in
  window1 <- slice sample i (i + 100) ;;
  window2 <- slice sample (i + 100) (i + 100 * 2) ;;
  Done (Continue (i + 100,
                  if (0.9 <? byteSimilarity window1 window2)%float
                  then repeatCount + 1 else repeatCount)).

(** [analyzeNoiseProfile] checks for natural noise characteristics. *)
Definition analyzeNoiseProfile (data : bytes) (format : string)
    : exec float :=
  if len data <? 10000 then Done 0.5%float else
  let start := len data / 3 in
  let end_ := start + min 5000 (len data - start) in
  sample <- slice data start end_ ;;
  st <- forLoop (List.length sample)
          (fun st => fst st <? len sample - 100 * 2)
          (repeatTurn sample) (0, 0) ;;
  if 5 <? snd st then Done 0.7%float else Done 0.4%float.

Record AudioAnalysisResult := {
  AIScore : float;
  Signals : AudioSignals;
  Metadata : AudioMetadata;
  Stats : AudioStats
}.

(** [Analyze] performs forensic analysis on audio data.  The single [range]
    over the encoder map in [analyzeMP3] and in [analyzeM4A] takes the order
    [order 0]. *)
Definition Analyze (P : Platform) (order : Z -> iteration) (data : bytes)
    : exec AudioAnalysisResult :=
  format <- detectAudioFormat data ;;
  '(metadata, stats) <-
    (if String.eqb format "mp3" then analyzeMP3 P (order 0) data
     else if String.eqb format "wav" then analyzeWAV P data
     else if String.eqb format "flac" then analyzeFLAC P order data
     else if String.eqb format "ogg" then analyzeOGG P data
     else if String.eqb format "m4a" || String.eqb format "aac"
     then analyzeM4A P (order 0) data
     else Done (newMetadata format, newStats (len data))) ;;
  pattern <- analyzePatterns P data format ;;
  signatures <- detectAISignatures P data metadata ;;
  noise <- analyzeNoiseProfile data format ;;
  let signals := {|
    MetadataScore := analyzeMetadata P metadata;
    FormatAnalysis := analyzeFormat metadata data;
    PatternAnalysis := pattern;
    QualityIndicators := analyzeQuality metadata stats;
    AISignatures := signatures;
    NoiseProfile := noise |} in
  Done {| AIScore := calculateWeightedScore DefaultAudioWeights signals;
          Signals := signals; Metadata := metadata; Stats := stats |}.

End AudioAnalyzer.

Module VideoAnalyzer.

Record VideoAnalyzerWeights := {
  wMetadataScore : float;
  wContainerAnalysis : float;
  wAudioPresence : float;
  wTemporalPattern : float;
  wEncodingSignature : float;
  wBitrateConsistency : float
}.

Definition DefaultVideoWeights : VideoAnalyzerWeights := {|
  wMetadataScore := 0.25;
  wContainerAnalysis := 0.20;
  wAudioPresence := 0.15;
  wTemporalPattern := 0.15;
  wEncodingSignature := 0.15;
  wBitrateConsistency := 0.10
|}.

Record VideoSignals := {
  MetadataScore : float;
  ContainerAnalysis : float;
  AudioPresence : float;
  TemporalPattern : float;
  EncodingSignature : float;
  BitrateConsistency : float
}.

Definition totalWeight (w : VideoAnalyzerWeights) : float :=
  (wMetadataScore w + wContainerAnalysis w + wAudioPresence w +
  wTemporalPattern w + wEncodingSignature w + wBitrateConsistency w)%float.

Definition calculateWeightedScore (w : VideoAnalyzerWeights)
    (signals : VideoSignals) : float :=
  let score :=
    (MetadataScore signals * wMetadataScore w +
    ContainerAnalysis signals * wContainerAnalysis w +
    AudioPresence signals * wAudioPresence w +
    TemporalPattern signals * wTemporalPattern w +
    EncodingSignature signals * wEncodingSignature w +
    BitrateConsistency signals * wBitrateConsistency w)%float in
  let totalWeight := totalWeight w in
  let score :=
    if (0 <? totalWeight)%float then (score / totalWeight)%float else score in
  Max 0 (Min 1 score).

(** [detectVideoFormat] identifies the video format from magic bytes.  The
    first test returns on any [ftyp] atom, before the brand is looked at. *)
Definition detectVideoFormat (data : bytes) : exec string :=
  if len data <? 12 then Done "unknown" else
  ftyp <- Done (8 <=? len data) &&& byteIs data 4 "f" &&& byteIs data 5 "t"
          &&& byteIs data 6 "y" &&& byteIs data 7 "p" ;;
  if ftyp then Done "mp4" else
  branded <-
    (if 12 <=? len data then
       again <- sliceIs data 4 8 "ftyp" ;;
       if again then
         brand <- slice data 8 12 ;;
         if bytes_eqb brand (lit "isom") || bytes_eqb brand (lit "iso2")
            || bytes_eqb brand (lit "mp41") || bytes_eqb brand (lit "mp42")
            || bytes_eqb brand (lit "avc1") || bytes_eqb brand (lit "M4V ")
         then Done (Some "mp4")
         else if bytes_eqb brand (lit "qt  ") then Done (Some "mov")
         else Done (Some "mp4")
       else Done None
     else Done None) ;;
  match branded with
  | Some format => Done format
  | None =>
  ebml <- byteIs data 0 x1a &&& byteIs data 1 x45 &&& byteIs data 2 xdf
          &&& byteIs data 3 xa3 ;;
  if ebml then
    head <- slice data 0 (min 100 (len data)) ;;
    if contains head (lit "webm") then Done "webm" else Done "mkv"
  else
  avi <- Done (12 <=? len data)
         &&& (sliceIs data 0 4 "RIFF" &&& sliceIs data 8 12 "AVI ") ;;
  if avi then Done "avi" else
  flv <- Done (4 <=? len data) &&& byteIs data 0 "F" &&& byteIs data 1 "L"
         &&& byteIs data 2 "V" ;;
  if flv then Done "flv" else
  ts <- byteIs data 0 x47
        &&& (Done (376 <? len data) &&& byteIs data 188 x47
             &&& byteIs data 376 x47) ;;
  if ts then Done "ts" else
  Done "unknown"
  end.

Record VideoMetadata := {
  Format : string;
  HasAudio : bool;
  HasVideo : bool;
  EncoderName : bytes;
  CreationTime : bytes;
  Duration : float;
  IsAIMarked : bool
}.

Record VideoStats := {
  FileSize : Z;
  EstimatedFPS : float;
  Width : Z;
  Height : Z;
  VideoBitrate : Z;
  AudioBitrate : Z;
  KeyframeCount : Z;
  ChunkCount : Z
}.

Definition setEncoderName (m : VideoMetadata) (e : bytes) : VideoMetadata :=
  {| Format := Format m; HasAudio := HasAudio m; HasVideo := HasVideo m;
     EncoderName := e; CreationTime := CreationTime m;
     Duration := Duration m; IsAIMarked := IsAIMarked m |}.

Definition setIsAIMarked (m : VideoMetadata) : VideoMetadata :=
  {| Format := Format m; HasAudio := HasAudio m; HasVideo := HasVideo m;
     EncoderName := EncoderName m; CreationTime := CreationTime m;
     Duration := Duration m; IsAIMarked := true |}.

Definition setHasAudio (m : VideoMetadata) : VideoMetadata :=
  {| Format := Format m; HasAudio := true; HasVideo := HasVideo m;
     EncoderName := EncoderName m; CreationTime := CreationTime m;
     Duration := Duration m; IsAIMarked := IsAIMarked m |}.

Definition setHasVideo (m : VideoMetadata) : VideoMetadata :=
  {| Format := Format m; HasAudio := HasAudio m; HasVideo := true;
     EncoderName := EncoderName m; CreationTime := CreationTime m;
     Duration := Duration m; IsAIMarked := IsAIMarked m |}.

Definition incrChunkCount (s : VideoStats) : VideoStats :=
  {| FileSize := FileSize s; EstimatedFPS := EstimatedFPS s;
     Width := Width s; Height := Height s; VideoBitrate := VideoBitrate s;
     AudioBitrate := AudioBitrate s; KeyframeCount := KeyframeCount s;
     ChunkCount := ChunkCount s + 1 |}.

(** The zero values but for the named fields. *)
Definition newMetadata (format : string) (hasVideo : bool) : VideoMetadata :=
  {| Format := format; HasAudio := false; HasVideo := hasVideo;
     EncoderName := []; CreationTime := []; Duration := 0;
     IsAIMarked := false |}.

Definition newStats (fileSize : Z) : VideoStats :=
  {| FileSize := fileSize; EstimatedFPS := 0; Width := 0; Height := 0;
     VideoBitrate := 0; AudioBitrate := 0; KeyframeCount := 0;
     ChunkCount := 0 |}.

(** [containsAIMarker] checks for known AI video generator markers. *)
Definition markers : list string :=
  [ "runway"; "pika"; "sora"; "gen-2"; "gen2";
    "stable video"; "stablevideo"; "modelscope";
    "deforum"; "animatediff"; "zeroscope";
    "ai generated"; "ai-generated"; "synthetic";
    "dall-e"; "midjourney" ].

Definition containsAIMarker (P : Platform) (s : bytes) : bool :=
  let lower := toLower P s in
  existsb (fun marker => contains lower (lit marker)) markers.

(** The map literal of [extractEncoder]. *)
Definition encoders : list (string * string) :=
  [ ("lavf", "ffmpeg"); ("ffmpeg", "ffmpeg"); ("handbrake", "HandBrake");
    ("premiere", "Adobe Premiere"); ("final cut", "Final Cut Pro");
    ("davinci", "DaVinci Resolve"); ("x264", "x264"); ("x265", "x265");
    ("runway", "Runway"); ("pika", "Pika Labs"); ("sora", "OpenAI Sora");
    ("modelscope", "ModelScope") ].

(** An iteration order of the map: Go visits every entry once, in an order
    that is not specified and changes from one [range] to the next. *)
Definition iteration := list (string * string).

Definition validIteration (order : iteration) : Prop :=
  Permutation order encoders.

(** [extractEncoder] returns the name of the first entry, in the order the
    [range] over the map visits them, whose key the lowered text contains. *)
Fixpoint firstEncoder (lower : bytes) (order : iteration) : bytes :=
  match order with
  | [] => []
  | (key, name) :: rest =>
      if contains lower (lit key) then lit name else firstEncoder lower rest
  end.

Definition extractEncoder (P : Platform) (order : iteration) (s : bytes)
    : bytes :=
  firstEncoder (toLower P s) order.

(** The loop state of the two atom walks. *)
Record walk := {
  offset : Z;
  meta : VideoMetadata;
  stats : VideoStats
}.

(** The size field of the atom at [offset]:
    [int(binary.BigEndian.Uint32(data[offset : offset+4]))]. *)
Definition declaredSize (data : bytes) (offset : Z) : exec Z :=
  field <- slice data offset (offset + 4) ;; beUint32 field.

(** One turn of the loop of [parseMovieAtom]; [order] gives the iteration
    order of the encoder map for the atom at each offset. *)
Definition parseMovieAtomTurn (P : Platform) (order : Z -> iteration)
    (data : bytes) (w : walk) : exec (turn walk) :=
  let offset := offset w in
  if len data <? offset + 8 then Done (Break w) else
  atomSize <- declaredSize data offset ;;
  atomType <- slice data (offset + 4) (offset + 8) ;;
  if (atomSize <? 8) || (len data <? offset + atomSize) then Done (Break w)
  else
    meta' <-
      (if bytes_eqb atomType (lit "mvhd") then Done (meta w)
       else if bytes_eqb atomType (lit "trak") then
         trackData <- slice data offset (offset + atomSize) ;;
         let m1 := if contains trackData (lit "soun")
                   then setHasAudio (meta w) else meta w in
         let m2 := if contains trackData (lit "vide")
                   then setHasVideo m1 else m1 in
         Done m2
       else if bytes_eqb atomType (lit "meta") then
         if 8 <? atomSize then
           metaData <- slice data (offset + 8)
                         (min (offset + atomSize) (offset + 1000)) ;;
           let m1 := if containsAIMarker P metaData
                     then setIsAIMarked (meta w) else meta w in
           let enc := extractEncoder P (order offset) metaData in
           Done (if bytes_eqb enc [] then m1 else setEncoderName m1 enc)
         else Done (meta w)
       else Done (meta w)) ;;
    Done (Continue {| offset := offset + atomSize; meta := meta';
                      stats := stats w |}).

(** [parseMovieAtom] parses the moov atom for metadata. *)
Definition parseMovieAtom (P : Platform) (order : Z -> iteration)
    (data : bytes) (meta : VideoMetadata) (stats : VideoStats)
    : exec (VideoMetadata * VideoStats) :=
  w <- forLoop (List.length data) (fun w => offset w <? len data - 8)
         (parseMovieAtomTurn P order data)
         {| offset := 8; meta := meta; stats := stats |} ;;
  Done (VideoAnalyzer.meta w, VideoAnalyzer.stats w).

(** One turn of the loop of [analyzeMP4]; [order o o'] is the iteration
    order of the encoder map at the atom at offset [o'] inside the top-level
    atom at offset [o] ([o' = 0] for the top-level atom itself). *)
Definition analyzeMP4Turn (P : Platform) (order : Z -> Z -> iteration)
    (data : bytes) (w : walk) : exec (turn walk) :=
  let offset := offset w in
  if len data <? offset + 8 then Done (Break w) else
  declared <- declaredSize data offset ;;
  atomType <- slice data (offset + 4) (offset + 8) ;;
  if declared <? 8 then Done (Break w) else
  let atomSize :=
    if len data <? offset + declared then len data - offset else declared in
  '(meta', stats') <-
    (if bytes_eqb atomType (lit "moov") then
       moov <- slice data offset (offset + atomSize) ;;
       parseMovieAtom P (order offset) moov (meta w) (stats w)
     else if bytes_eqb atomType (lit "mdat") then
       Done (meta w, incrChunkCount (stats w))
     else if bytes_eqb atomType (lit "ftyp") then
       if 8 <? atomSize then
         ftypData <- slice data (offset + 8)
                       (min (offset + atomSize) (offset + 100)) ;;
         Done (if containsAIMarker P ftypData
               then setIsAIMarked (meta w) else meta w, stats w)
       else Done (meta w, stats w)
     else if bytes_eqb atomType (lit "udta") then
       if 8 <? atomSize then
         udtaData <- slice data (offset + 8)
                       (min (offset + atomSize) (offset + 500)) ;;
         let m1 := setEncoderName (meta w)
                     (extractEncoder P (order offset 0) udtaData) in
         Done (if containsAIMarker P udtaData
               then setIsAIMarked m1 else m1, stats w)
       else Done (meta w, stats w)
     else Done (meta w, stats w)) ;;
  Done (Continue {| offset := offset + atomSize; meta := meta';
                    stats := stats' |}).

(** [analyzeMP4] extracts metadata from MP4/MOV containers. *)
Definition analyzeMP4 (P : Platform) (order : Z -> Z -> iteration)
    (data : bytes) : exec (VideoMetadata * VideoStats) :=
  w <- forLoop (List.length data) (fun w => offset w <? len data - 8)
         (analyzeMP4Turn P order data)
         {| offset := 0; meta := newMetadata "mp4" true;
            stats := newStats (len data) |} ;;
  Done (VideoAnalyzer.meta w, VideoAnalyzer.stats w).

(** [analyzeWebM] extracts metadata from WebM/MKV containers. *)
Definition analyzeWebM (P : Platform) (order : iteration) (data : bytes)
    : exec (VideoMetadata * VideoStats) :=
  dataStr <- slice data 0 (min (len data) 2000) ;;
  let m0 := newMetadata "webm" true in
  let m1 := if contains data [x81] then setHasAudio m0 else m0 in
  let m2 := setEncoderName m1 (extractEncoder P order dataStr) in
  let m3 := if containsAIMarker P dataStr then setIsAIMarked m2 else m2 in
  Done (m3, newStats (len data)).

(** [analyzeAVI] extracts metadata from AVI containers. *)
Definition analyzeAVI (P : Platform) (order : iteration) (data : bytes)
    : exec (VideoMetadata * VideoStats) :=
  let m0 := newMetadata "avi" true in
  let m1 := if contains data (lit "auds") then setHasAudio m0 else m0 in
  if 500 <? len data then
    headerData <- slice data 0 500 ;;
    let m2 := setEncoderName m1 (extractEncoder P order headerData) in
    let m3 :=
      if containsAIMarker P headerData then setIsAIMarked m2 else m2 in
    Done (m3, newStats (len data))
  else Done (m1, newStats (len data)).

Definition aiEncoders : list string :=
  [ "runway"; "pika"; "sora"; "gen-2"; "gen2";
    "stable video"; "stablevideo"; "modelscope";
    "deforum"; "animatediff"; "zeroscope" ].

Definition proEncoders : list string :=
  [ "premiere"; "final cut"; "davinci"; "avid";
    "ffmpeg"; "handbrake"; "x264"; "x265" ].

(** [analyzeMetadata] scores based on metadata presence and quality. *)
Definition analyzeMetadata (P : Platform) (meta : VideoMetadata) : float :=
  let score := 0.5%float in
  let score := if IsAIMarked meta then (score + 0.4)%float else score in
  let score :=
    if negb (HasAudio meta) then (score + 0.15)%float else score in
  let encoderLower := toLower P (EncoderName meta) in
  let score :=
    if existsb (fun ai => contains encoderLower (lit ai)) aiEncoders
    then (score + 0.3)%float else score in
  let score :=
    if existsb (fun pro => contains encoderLower (lit pro)) proEncoders
    then (score - 0.1)%float else score in
  Max 0 (Min 1 score).

(** [analyzeContainer] checks container structure for anomalies. *)
Definition analyzeContainer (data : bytes) (format : string) : exec float :=
  if len data <? 1000 then Done 0.5%float else
  let score := 0.5%float in
  if String.eqb format "mp4" || String.eqb format "mov" then
    head <- slice data 0 (min (len data) 100000) ;;
    let hasMoviAtom := contains head (lit "moov") in
    let hasMdatAtom := contains data (lit "mdat") in
    let score := if negb hasMoviAtom then (score + 0.2)%float else score in
    let score := if negb hasMdatAtom then (score + 0.2)%float else score in
    Done score
  else if String.eqb format "webm" then
    head <- slice data 0 (min (len data) 1000) ;;
    let hasSegment := contains head [x18; x53; x80; x67] in
    Done (if negb hasSegment then (score + 0.2)%float else score)
  else Done score.

(** [analyzeAudioPresence] evaluates audio track characteristics. *)
Definition analyzeAudioPresence (meta : VideoMetadata) (data : bytes)
    (format : string) : float :=
  if HasAudio meta then 0.3%float else 0.7%float.

(** The sample of region [i] of [analyzeTemporalPattern]; [None] is the
    [nil] an entry of [samples] keeps when [end > start] fails. *)
Definition regionSample (data : bytes) (regionSize i : Z)
    : exec (option bytes) :=
  let start := (i + 1) * regionSize in
  let end_ := start + min 1000 (len data - start) in
  if start <? end_ then
    sample <- slice data start end_ ;; Done (Some sample)
  else Done None.

(** One comparison of the nested loops of [analyzeTemporalPattern]. *)
Definition compareRegions (acc : float * Z) (p : option bytes * option bytes)
    : float * Z :=
  let '(repetitionScore, comparisons) := acc in
  match p with
  | (Some a, Some b) =>
      let sim := byteSimilarity a b in
      (if (0.5 <? sim)%float then (repetitionScore + sim)%float
       else repetitionScore, comparisons + 1)
  | _ => acc
  end.

(** [analyzeTemporalPattern] looks for unusual patterns in the video data. *)
Definition analyzeTemporalPattern (data : bytes) (format : string)
    : exec float :=
  if len data <? 10000 then Done 0.5%float else
  let regions := 5 in
  let regionSize := len data / (regions + 1) in
  samples <- mapE (regionSample data regionSize) [0; 1; 2; 3; 4] ;;
  let '(repetitionScore, comparisons) :=
    fold_left compareRegions (pairsOf samples) (0%float, 0) in
  if 0 <? comparisons then
    let avgRepetition := (repetitionScore / float64 comparisons)%float in
    if (0.3 <? avgRepetition)%float then Done 0.7%float else Done 0.4%float
  else Done 0.4%float.

(** [analyzeEncodingSignature] checks for known encoder signatures. *)
Definition analyzeEncodingSignature (data : bytes) (meta : VideoMetadata)
    : float :=
  let score := 0.5%float in
  let hasH264 := contains data (lit "avc1") || contains data (lit "h264") in
  let hasH265 := contains data (lit "hvc1") || contains data (lit "hevc") in
  let hasVP9 := contains data (lit "vp09") in
  let hasAV1 := contains data (lit "av01") in
  let score :=
    if hasH264 || hasH265 || hasVP9 || hasAV1 then 0.45%float else score in
  if negb hasH264 && negb hasH265 && negb hasVP9 && negb hasAV1 then
    if String.eqb (Format meta) "mp4" || String.eqb (Format meta) "webm"
    then 0.6%float else score
  else score.

(** [analyzeBitrateConsistency] estimates bitrate consistency. *)
Definition analyzeBitrateConsistency (P : Platform) (data : bytes)
    (stats : VideoStats) : exec float :=
  if FileSize stats <? 100000 then Done 0.6%float else
  if len data <? 10000 then Done 0.5%float else
  let chunkSize := len data / 5 in
  found <- mapE (fun i =>
                   let start := i * chunkSize in
                   regionEntropy P data start
                     (start + min chunkSize (len data - start)))
             [0; 1; 2; 3; 4] ;;
  let entropies := List.concat found in
  if len entropies <? 2 then Done 0.5%float else
  if (0.1 <? varianceOf entropies)%float then Done 0.6%float
  else Done 0.4%float.

Record VideoAnalysisResult := {
  AIScore : float;
  Signals : VideoSignals;
  Metadata : VideoMetadata;
  Stats : VideoStats
}.

(** [Analyze] performs forensic analysis on video data.  The single [range]
    over the encoder map in [analyzeWebM] and in [analyzeAVI] takes the
    order [order 0 0]. *)
Definition Analyze (P : Platform) (order : Z -> Z -> iteration)
    (data : bytes) : exec VideoAnalysisResult :=
  format <- detectVideoFormat data ;;
  '(metadata, stats) <-
    (if String.eqb format "mp4" || String.eqb format "mov" then
       analyzeMP4 P order data
     else if String.eqb format "webm" then analyzeWebM P (order 0 0) data
     else if String.eqb format "avi" then analyzeAVI P (order 0 0) data
     else Done (newMetadata format false, newStats (len data))) ;;
  container <- analyzeContainer data format ;;
  temporal <- analyzeTemporalPattern data format ;;
  bitrate <- analyzeBitrateConsistency P data stats ;;
  let signals := {|
    MetadataScore := analyzeMetadata P metadata;
    ContainerAnalysis := container;
    AudioPresence := analyzeAudioPresence metadata data format;
    TemporalPattern := temporal;
    EncodingSignature := analyzeEncodingSignature data metadata;
    BitrateConsistency := bitrate |} in
  Done {| AIScore := calculateWeightedScore DefaultVideoWeights signals;
          Signals := signals; Metadata := metadata; Stats := stats |}.

End VideoAnalyzer.

(** ** The aggregate as the specification words it

    [weightedMean] is the quotient of the sum of the products by the sum of
    the weights, both summed from left to right as Go evaluates a chain of
    additions. *)

Fixpoint sumFrom (acc : float) (l : list float) : float :=
  match l with
  | [] => acc
  | x :: l' => sumFrom (acc + x)%float l'
  end.

Definition sumOf (l : list float) : float :=
  match l with
  | [] => 0
  | x :: l' => sumFrom x l'
  end.

Definition weightedMean (sw : list (float * float)) : float :=
  (sumOf (map (fun p => fst p * snd p) sw) / sumOf (map snd sw))%float.

(** ** crypto/sha256 and encoding/hex

    The digest of FIPS 180-4 on 32-bit words held in [Z]. *)

Module SHA256.

Definition w32 (x : Z) : Z := Z.land x 0xFFFFFFFF.

Definition add32 (x y : Z) : Z := w32 (x + y).

Definition rotr (n x : Z) : Z :=
  Z.lor (Z.shiftr x n) (w32 (Z.shiftl x (32 - n))).

Definition not32 (x : Z) : Z := Z.lxor x 0xFFFFFFFF.

Definition Ch (x y z : Z) : Z :=
  Z.lxor (Z.land x y) (Z.land (not32 x) z).

Definition Maj (x y z : Z) : Z :=
  Z.lxor (Z.lxor (Z.land x y) (Z.land x z)) (Z.land y z).

Definition Sigma0 (x : Z) : Z :=
  Z.lxor (Z.lxor (rotr 2 x) (rotr 13 x)) (rotr 22 x).

Definition Sigma1 (x : Z) : Z :=
  Z.lxor (Z.lxor (rotr 6 x) (rotr 11 x)) (rotr 25 x).

Definition sigma0 (x : Z) : Z :=
  Z.lxor (Z.lxor (rotr 7 x) (rotr 18 x)) (Z.shiftr x 3).

Definition sigma1 (x : Z) : Z :=
  Z.lxor (Z.lxor (rotr 17 x) (rotr 19 x)) (Z.shiftr x 10).

(** The first 64 primes. *)
Definition primes : list Z :=
  [ 2; 3; 5; 7; 11; 13; 17; 19; 23; 29; 31; 37; 41; 43; 47; 53;
    59; 61; 67; 71; 73; 79; 83; 89; 97; 101; 103; 107; 109; 113; 127; 131;
    137; 139; 149; 151; 157; 163; 167; 173; 179; 181; 191; 193; 197; 199;
    211; 223; 227; 229; 233; 239; 241; 251; 257; 263; 269; 271; 277; 281;
    283; 293; 307; 311 ].

(** The integer cube root of [n], for [n] below [2^105], by bisection from
    the top bit down. *)
Fixpoint cbrtBits (bits : nat) (n root : Z) : Z :=
  match bits with
  | O => root
  | Datatypes.S bits' =>
      let candidate := root + Z.shiftl 1 (Z.of_nat bits') in
      if candidate * candidate * candidate <=? n
      then cbrtBits bits' n candidate
      else cbrtBits bits' n root
  end.

(** The round constants: the first 32 bits of the fractional parts of the
    cube roots of the first 64 primes. *)
Definition K : list Z :=
  Eval vm_compute in
    map (fun p => w32 (cbrtBits 35 (Z.shiftl p 96) 0)) primes.

(** The initial hash value: the first 32 bits of the fractional parts of
    the square roots of the first 8 primes. *)
Definition H0 : list Z :=
  Eval vm_compute in
    map (fun p => w32 (Z.sqrt (Z.shiftl p 64))) (firstn 8 primes).

(** Big-endian words of a block. *)
Fixpoint words (b : list Z) : list Z :=
  match b with
  | b0 :: b1 :: b2 :: b3 :: rest =>
      Z.lor (Z.lor (Z.lor (Z.shiftl b0 24) (Z.shiftl b1 16))
                   (Z.shiftl b2 8)) b3 :: words rest
  | _ => []
  end.

(** The message schedule: [n] more words after the 16 of [window], which
    holds the last 16 words, oldest first. *)
Fixpoint schedule (n : nat) (window : list Z) : list Z :=
  match n with
  | O => []
  | S n' =>
      let w16 := nth 0 window 0 in
      let w15 := nth 1 window 0 in
      let w7 := nth 9 window 0 in
      let w2 := nth 14 window 0 in
      let w := add32 (add32 (add32 (sigma1 w2) w7) (sigma0 w15)) w16 in
      w :: schedule n' (tl window ++ [w])
  end.

Definition round (st : list Z) (kw : Z * Z) : list Z :=
  match st with
  | [a; b; c; d; e; f; g; h] =>
      let t1 := add32 (add32 (add32 (add32 h (Sigma1 e)) (Ch e f g)) (fst kw))
                      (snd kw) in
      let t2 := add32 (Sigma0 a) (Maj a b c) in
      [add32 t1 t2; a; b; c; add32 d t1; e; f; g]
  | _ => st
  end.

Definition compress (h : list Z) (block : list Z) : list Z :=
  let w := words block in
  let ws := w ++ schedule 48 w in
  let st := fold_left round (combine K ws) h in
  map (fun p => add32 (fst p) (snd p)) (combine h st).

Fixpoint blocks (n : nat) (h : list Z) (msg : list Z) : list Z :=
  match n with
  | O => h
  | S n' => blocks n' (compress h (firstn 64 msg)) (skipn 64 msg)
  end.

Definition be64 (n : Z) : list Z :=
  map (fun i => Z.land (Z.shiftr n (8 * (7 - Z.of_nat i))) 0xFF) (seq 0 8).

Definition pad (msg : list Z) : list Z :=
  let n := len msg in
  let zeros := (55 - n) mod 64 in
  msg ++ [0x80] ++ repeat 0 (Z.to_nat zeros) ++ be64 (8 * n).

Definition bytesOfWord (w : Z) : list Z :=
  [ Z.shiftr w 24; Z.land (Z.shiftr w 16) 0xFF;
    Z.land (Z.shiftr w 8) 0xFF; Z.land w 0xFF ].

(** [sha256.Sum256]: the 32 bytes of the digest, as numbers. *)
Definition sum (msg : bytes) : list Z :=
  let padded := pad (map byteZ msg) in
  flat_map bytesOfWord
    (blocks (List.length padded / 64) H0 padded).

End SHA256.

Definition hexDigit (n : Z) : byte :=
  nth (Z.to_nat n) (lit "0123456789abcdef") x00.

(** [hex.EncodeToString] *)
Definition hexEncode (digest : list Z) : bytes :=
  flat_map (fun b => [hexDigit (Z.shiftr b 4); hexDigit (Z.land b 0x0F)])
    digest.

(** ** The orchestrator: input, content category, content hash *)

Module Detector.

(** [ContentType] is a Go string type; any string may come in. *)
Definition ContentType := string.

Definition ContentTypeText : ContentType := "text".
Definition ContentTypeImage : ContentType := "image".
Definition ContentTypeAudio : ContentType := "audio".
Definition ContentTypeVideo : ContentType := "video".
Definition ContentTypeUnknown : ContentType := "unknown".

Record DetectionInput := {
  URL : bytes;
  Text : bytes;
  Data : bytes;
  Filename : bytes;
  ContentType_ : ContentType
}.

Definition isEmpty (s : bytes) : bool :=
  match s with
  | [] => true
  | _ :: _ => false
  end.

(** [hashContent] creates a SHA256 hash of the content: of the text if
    there is one, else of the data if there are any, else of the URL if
    there is one, else of nothing. *)
Definition hashContent (input : DetectionInput) : bytes :=
  let written :=
    if negb (isEmpty (Text input)) then Text input
    else if 0 <? len (Data input) then Data input
    else if negb (isEmpty (URL input)) then URL input
    else [] in
  hexEncode (SHA256.sum written).

(** [filepath.Ext]: the suffix from the last dot of the last path element,
    or nothing.  [ext] scans the reversed path. *)
Fixpoint extRev (rev_path acc : bytes) : bytes :=
  match rev_path with
  | [] => []
  | c :: rest =>
      if Byte.eqb c "/" then []
      else if Byte.eqb c "." then c :: acc
      else extRev rest (c :: acc)
  end.

Definition Ext (path : bytes) : bytes := extRev (rev path) [].

Definition oneOf (s : bytes) (l : list string) : bool :=
  existsb (fun x => bytes_eqb s (lit x)) l.

(** [ContentTypeFromFilename] *)
Definition ContentTypeFromFilename (P : Platform) (filename : bytes)
    : ContentType :=
  let ext := toLower P (Ext filename) in
  if oneOf ext [".txt"; ".md"; ".html"; ".htm"; ".json"; ".xml"; ".csv"]
  then ContentTypeText
  else if oneOf ext [".jpg"; ".jpeg"; ".png"; ".gif"; ".webp"; ".bmp"; ".svg"]
  then ContentTypeImage
  else if oneOf ext [".mp3"; ".wav"; ".flac"; ".ogg"; ".m4a"; ".aac"]
  then ContentTypeAudio
  else if oneOf ext [".mp4"; ".mov"; ".avi"; ".webm"; ".mkv"; ".wmv"]
  then ContentTypeVideo
  else ContentTypeUnknown.

(** [url[:strings.Index(url, "?")]], or [url] without a question mark. *)
Fixpoint beforeQuery (url : bytes) : bytes :=
  match url with
  | [] => []
  | c :: rest => if Byte.eqb c "?" then [] else c :: beforeQuery rest
  end.

(** [ContentTypeFromURL] *)
Definition ContentTypeFromURL (P : Platform) (url : bytes) : ContentType :=
  ContentTypeFromFilename P (beforeQuery url).

(** [ContentTypeFromMagicBytes] *)
Definition ContentTypeFromMagicBytes (data : bytes) : exec ContentType :=
  if len data <? 4 then Done ContentTypeUnknown else
  jpeg <- byteIs data 0 xff &&& byteIs data 1 xd8 &&& byteIs data 2 xff ;;
  if jpeg then Done ContentTypeImage else
  png <- byteIs data 0 x89 &&& byteIs data 1 x50 &&& byteIs data 2 x4e
         &&& byteIs data 3 x47 ;;
  if png then Done ContentTypeImage else
  gif <- byteIs data 0 x47 &&& byteIs data 1 x49 &&& byteIs data 2 x46
         &&& byteIs data 3 x38 ;;
  if gif then Done ContentTypeImage else
  webp <- Done (12 <=? len data) &&& byteIs data 0 x52 &&& byteIs data 1 x49
          &&& byteIs data 2 x46 &&& byteIs data 3 x46
          &&& (byteIs data 8 x57 &&& byteIs data 9 x45 &&& byteIs data 10 x42
               &&& byteIs data 11 x50) ;;
  if webp then Done ContentTypeImage else
  mp3 <- (byteIs data 0 xff &&& byteHas data 1 0xE0)
         ||| (byteIs data 0 x49 &&& byteIs data 1 x44 &&& byteIs data 2 x33) ;;
  if mp3 then Done ContentTypeAudio else
  mp4 <- Done (8 <=? len data) &&& byteIs data 4 x66 &&& byteIs data 5 x74
         &&& byteIs data 6 x79 &&& byteIs data 7 x70 ;;
  if mp4 then Done ContentTypeVideo else
  wav <- Done (12 <=? len data) &&& byteIs data 0 x52 &&& byteIs data 1 x49
         &&& byteIs data 2 x46 &&& byteIs data 3 x46
         &&& (byteIs data 8 x57 &&& byteIs data 9 x41 &&& byteIs data 10 x56
              &&& byteIs data 11 x45) ;;
  if wav then Done ContentTypeAudio else
  Done ContentTypeUnknown.

(** [detectContentType] determines content type from input. *)
Definition detectContentType (P : Platform) (input : DetectionInput)
    : exec ContentType :=
  if negb (isEmpty (Text input)) then Done ContentTypeText
  else if negb (isEmpty (Filename input))
  then Done (ContentTypeFromFilename P (Filename input))
  else if negb (isEmpty (URL input))
  then Done (ContentTypeFromURL P (URL input))
  else if 0 <? len (Data input) then ContentTypeFromMagicBytes (Data input)
  else Done ContentTypeUnknown.

End Detector.

(** ** Finite tables of reachable values

    The sums of phrase weights [detectAIPhrases] can reach, and the tests
    run over every value of the punctuation signal; both are evaluated once
    and for all in the proofs on short texts. *)

Definition insertFloat (x : float) (l : list float) : list float :=
  if existsb (Leibniz.eqb x) l then l else x :: l.

(** The total weights reachable after one more phrase of weight [w], from
    the set [sums] of those reachable with at least one match so far. *)
Definition reachStep (w : float) (sums : list float) : list float :=
  fold_right insertFloat sums
    ((0 + w)%float :: map (fun x => (x + w)%float) sums).

Fixpoint reachAll (phrases : list (string * float)) (sums : list float)
    : list float :=
  match phrases with
  | [] => sums
  | p :: rest => reachAll rest (reachStep (snd p) sums)
  end.

(** The score of a text all of whose signals but the punctuation and the
    phrase signal sit at the neutral 0.5. *)
Definition neutralScore (punctuation phrases : float) : float :=
  TextAnalyzer.calculateWeightedScore TextAnalyzer.DefaultWeights
    {| TextAnalyzer.SentenceVariance := 0.5;
       TextAnalyzer.VocabularyRichness := 0.5;
       TextAnalyzer.Burstiness := 0.5;
       TextAnalyzer.PunctuationVariety := punctuation;
       TextAnalyzer.AIPhraseScore := phrases;
       TextAnalyzer.WordLengthVariance := 0.5;
       TextAnalyzer.ContractionsUsage := 0.5;
       TextAnalyzer.RepetitionScore := 0.5 |}.

Definition inBand (punctuation : float) : bool :=
  within 0.3 0.7 (neutralScore punctuation 0)
  && within 0.3 0.7 (neutralScore punctuation 1).

(** The band tested on the punctuation signal of every text with at most
    15 distinct marks. *)
Definition fewMarksInBand : bool :=
  forallb
    (fun u =>
       forallb (fun v => inBand (TextAnalyzer.punctuationScore u v))
         [0; 1; 2; 3; 4; 5; 6; 7; 8; 9; 10])
    [0; 1; 2; 3; 4; 5; 6; 7; 8; 9; 10; 11; 12; 13; 14; 15].

(** Half the interest score, for 0 to 10 interesting marks. *)
Definition interestHalves : list float :=
  Eval vm_compute in
    map (fun v => (float64 v / 5.0 * 0.5)%float)
      [0; 1; 2; 3; 4; 5; 6; 7; 8; 9; 10].

(** With [u] distinct marks the score before the clamp is at most 0,
    whatever the number of interesting marks. *)
Definition rowNonPositive (u : Z) : bool :=
  let variety := (float64 u / 8.0 * 0.5)%float in
  forallb (fun interest => (1.0 - (variety + interest) <=? 0)%float)
    interestHalves.

Fixpoint rowsNonPositive (n : nat) (u : Z) : bool :=
  match n with
  | O => true
  | S n' => rowNonPositive u && rowsNonPositive n' (u + 1)
  end.

Fixpoint blocksNonPositive (n : nat) (u : Z) : bool :=
  match n with
  | O => true
  | S n' => rowsNonPositive 1024 u && blocksNonPositive n' (u + 1024)
  end.

(** ** Concrete inputs of the examples *)

(** A platform for the examples below, whose inputs are short ASCII texts
    and small buffers that reach none of the platform's functions. *)
Definition asciiPlatform : Platform := {|
  Log2 := fun _ => 0%float;
  unicodeToLower := fun s => s;
  unicodeIsPunct := fun _ => false;
  unicodeTrimSpace := fun s => s
|}.

(** The iteration order that visits the encoder map as it is written. *)
Definition writtenOrder : VideoAnalyzer.iteration := VideoAnalyzer.encoders.

(** A 25-byte moov atom holding one [meta] atom that declares 256 bytes
    where 17 are left. *)
Definition truncatedMoov : bytes :=
  ([x00; x00; x00; x19] ++ lit "moov" ++
   [x00; x00; x01; x00] ++ lit "meta" ++ lit "sora lavf").

(** A 32-byte file: an [ftyp] atom of 16 bytes, then an [mdat] atom that
    declares 4096 bytes and holds 8. *)
Definition truncatedFile : bytes :=
  ([x00; x00; x00; x10] ++ lit "ftypisom" ++ [x00; x00; x00; x00] ++
   [x00; x00; x10; x00] ++ lit "mdat" ++ lit "12345678").

(** A signal set of any of the four modalities, and the aggregate the
    specification calls [aggregate(signals, weights)]: the modality's
    [calculateWeightedScore] under its default weight table. *)

Inductive SignalSet : Type :=
| TextSet (s : TextAnalyzer.TextSignals)
| ImageSet (s : ImageAnalyzer.ImageSignals)
| AudioSet (s : AudioAnalyzer.AudioSignals)
| VideoSet (s : VideoAnalyzer.VideoSignals).

Definition aggregate (ss : SignalSet) : float :=
  match ss with
  | TextSet s =>
      TextAnalyzer.calculateWeightedScore TextAnalyzer.DefaultWeights s
  | ImageSet s =>
      ImageAnalyzer.calculateWeightedScore ImageAnalyzer.DefaultImageWeights s
  | AudioSet s =>
      AudioAnalyzer.calculateWeightedScore AudioAnalyzer.DefaultAudioWeights s
  | VideoSet s =>
      VideoAnalyzer.calculateWeightedScore VideoAnalyzer.DefaultVideoWeights s
  end.

(** The signals of a set paired with the weights of its table, in the
    order of the fields. *)
Definition weighted (ss : SignalSet) : list (float * float) :=
  match ss with
  | TextSet s =>
      let w := TextAnalyzer.DefaultWeights in
      [ (TextAnalyzer.SentenceVariance s, TextAnalyzer.wSentenceVariance w);
        (TextAnalyzer.VocabularyRichness s, TextAnalyzer.wVocabularyRichness w);
        (TextAnalyzer.Burstiness s, TextAnalyzer.wBurstiness w);
        (TextAnalyzer.PunctuationVariety s, TextAnalyzer.wPunctuationVariety w);
        (TextAnalyzer.AIPhraseScore s, TextAnalyzer.wAIPhraseDetection w);
        (TextAnalyzer.WordLengthVariance s, TextAnalyzer.wWordLengthVariance w);
        (TextAnalyzer.ContractionsUsage s, TextAnalyzer.wContractionsUsage w);
        (TextAnalyzer.RepetitionScore s, TextAnalyzer.wRepetitionPenalty w) ]
  | ImageSet s =>
      let w := ImageAnalyzer.DefaultImageWeights in
      [ (ImageAnalyzer.MetadataScore s, ImageAnalyzer.wMetadataScore w);
        (ImageAnalyzer.ColorDistribution s, ImageAnalyzer.wColorDistribution w);
        (ImageAnalyzer.EdgeConsistency s, ImageAnalyzer.wEdgeConsistency w);
        (ImageAnalyzer.NoisePattern s, ImageAnalyzer.wNoisePattern w);
        (ImageAnalyzer.CompressionAnalysis s,
         ImageAnalyzer.wCompressionAnalysis w);
        (ImageAnalyzer.SymmetryScore s, ImageAnalyzer.wSymmetryDetection w) ]
  | AudioSet s =>
      let w := AudioAnalyzer.DefaultAudioWeights in
      [ (AudioAnalyzer.MetadataScore s, AudioAnalyzer.wMetadataScore w);
        (AudioAnalyzer.FormatAnalysis s, AudioAnalyzer.wFormatAnalysis w);
        (AudioAnalyzer.PatternAnalysis s, AudioAnalyzer.wPatternAnalysis w);
        (AudioAnalyzer.QualityIndicators s, AudioAnalyzer.wQualityIndicators w);
        (AudioAnalyzer.AISignatures s, AudioAnalyzer.wAISignatures w);
        (AudioAnalyzer.NoiseProfile s, AudioAnalyzer.wNoiseProfile w) ]
  | VideoSet s =>
      let w := VideoAnalyzer.DefaultVideoWeights in
      [ (VideoAnalyzer.MetadataScore s, VideoAnalyzer.wMetadataScore w);
        (VideoAnalyzer.ContainerAnalysis s, VideoAnalyzer.wContainerAnalysis w);
        (VideoAnalyzer.AudioPresence s, VideoAnalyzer.wAudioPresence w);
        (VideoAnalyzer.TemporalPattern s, VideoAnalyzer.wTemporalPattern w);
        (VideoAnalyzer.EncodingSignature s, VideoAnalyzer.wEncodingSignature w);
        (VideoAnalyzer.BitrateConsistency s,
         VideoAnalyzer.wBitrateConsistency w) ]
  end.

(* ===================================================================== *)
(** * Theorems *)
(* ===================================================================== *)

(** ** Comparison facts on binary64 *)

Section SpecFloatFacts.

Lemma SFcompare_antisym (a b : spec_float) :
  SFcompare a b = option_map CompOpp (SFcompare b a).
Proof.
  destruct a as [sa|sa| |sa ma ea], b as [sb|sb| |sb mb eb]; simpl;
    try reflexivity;
    try (destruct sa; reflexivity); try (destruct sb; reflexivity);
    try (destruct sa, sb; reflexivity).
  destruct sa, sb; simpl; try reflexivity;
    rewrite (Z.compare_antisym ea eb);
    destruct (ea ?= eb)%Z eqn:E; simpl; try reflexivity;
    change (Pcompare mb ma Eq) with (Pos.compare mb ma);
    change (Pcompare ma mb Eq) with (Pos.compare ma mb);
    rewrite (Pos.compare_antisym ma mb);
    destruct (ma ?= mb)%positive; reflexivity.
Qed.

Lemma SFcompare_None (a b : spec_float) :
  SFcompare a b = None -> a = S754_nan \/ b = S754_nan.
Proof.
  destruct a as [sa|sa| |sa ma ea], b as [sb|sb| |sb mb eb]; simpl;
    intros H; try discriminate; auto.
Qed.

Lemma SFcompare_eq_l (a b c : spec_float) :
  SFcompare a b = Some Eq -> SFcompare a c = SFcompare b c.
Proof.
  destruct a as [sa|sa| |sa ma ea], b as [sb|sb| |sb mb eb]; simpl;
    try discriminate; try (destruct sa; discriminate);
    try (destruct sb; discriminate).
  - intros _. destruct c; reflexivity.
  - destruct sa, sb; try discriminate; intros _; reflexivity.
  - destruct sa, sb; try discriminate;
      destruct (ea ?= eb)%Z eqn:E; try discriminate;
      apply Z.compare_eq in E; subst eb;
      change (Pcompare ma mb Eq) with (Pos.compare ma mb);
      destruct (ma ?= mb)%positive eqn:F; try discriminate;
      apply Pos.compare_eq in F; subst mb; reflexivity.
Qed.

End SpecFloatFacts.

(** ** Comparison facts on primitive floats *)

Section FloatFacts.

Local Open Scope float_scope.

Lemma is_nan_spec (x : float) :
  is_nan x = false <-> Prim2SF x <> S754_nan.
Proof.
  unfold is_nan. rewrite FloatAxioms.eqb_spec. unfold SFeqb.
  destruct (Prim2SF x) as [s|s| |s m e]; simpl.
  - split; [discriminate | reflexivity].
  - destruct s; (split; [discriminate | reflexivity]).
  - split; [discriminate | intros H; now elim H].
  - rewrite Z.compare_refl.
    change (Pcompare m m Eq) with (Pos.compare m m).
    rewrite Pos.compare_refl.
    destruct s; (split; [discriminate | reflexivity]).
Qed.

Lemma ltb_false_leb (x y : float) :
  is_nan x = false -> is_nan y = false ->
  (y <? x) = false -> (x <=? y) = true.
Proof.
  intros Hx Hy. apply is_nan_spec in Hx. apply is_nan_spec in Hy.
  rewrite FloatAxioms.ltb_spec, FloatAxioms.leb_spec. unfold SFltb, SFleb. rewrite (SFcompare_antisym (Prim2SF x) (Prim2SF y)).
  destruct (SFcompare (Prim2SF y) (Prim2SF x)) as [[ | | ]|] eqn:E;
    simpl; try reflexivity; try discriminate.
  intros _. apply SFcompare_None in E. destruct E; contradiction.
Qed.

Lemma eqb_leb_l (x y z : float) :
  (x =? y) = true -> (x <=? z) = (y <=? z).
Proof.
  rewrite FloatAxioms.eqb_spec, !FloatAxioms.leb_spec. unfold SFeqb, SFleb.
  destruct (SFcompare (Prim2SF x) (Prim2SF y)) as [[ | | ]|] eqn:E;
    try discriminate.
  intros _. now rewrite (SFcompare_eq_l _ _ (Prim2SF z) E).
Qed.

Lemma clamp01_range (x : float) :
  is_nan x = false -> within 0 1 (clamp01 x) = true.
Proof.
  intros Hx. unfold clamp01, Min.
  change (1 =? neg_infinity) with false.
  change (is_nan 1) with false.
  change (1 =? 0) with false.
  rewrite Hx. simpl orb. simpl andb. cbv iota.
  destruct (x =? neg_infinity) eqn:Einf; [reflexivity|].
  destruct (1 <? x) eqn:E1; [reflexivity|].
  assert (Hle : (x <=? 1) = true)
    by (apply ltb_false_leb; [exact Hx | reflexivity | exact E1]).
  unfold Max.
  change (0 =? infinity) with false.
  change (is_nan 0) with false.
  change (0 =? 0) with true.
  change (get_sign 0) with false.
  rewrite Hx. simpl orb. simpl andb. cbv iota.
  destruct (x =? infinity) eqn:Ei.
  - rewrite (eqb_leb_l _ _ 1 Ei) in Hle. discriminate Hle.
  - destruct (0 =? x) eqn:E0; [reflexivity|].
    destruct (x <? 0) eqn:E2; [reflexivity|].
    unfold within. rewrite Hle.
    rewrite (ltb_false_leb 0 x); [reflexivity | reflexivity | exact Hx | exact E2].
Qed.

Lemma clamp01_nan (x : float) :
  is_nan x = true -> clamp01 x = nan.
Proof.
  intros Hx. unfold clamp01, Min.
  change (1 =? neg_infinity) with false.
  change (is_nan 1) with false.
  rewrite Hx. simpl orb.
  destruct (x =? neg_infinity) eqn:Einf.
  - unfold is_nan in Hx. apply negb_true_iff in Hx.
    rewrite FloatAxioms.eqb_spec in Hx, Einf. unfold SFeqb in Hx, Einf.
    destruct (Prim2SF x) as [s|s| |s m e]; simpl in *; try discriminate.
    destruct s; discriminate.
  - reflexivity.
Qed.

Lemma leb_zero_cases (a : float) :
  (a <=? 0) = true ->
  is_nan a = false /\ (a =? infinity) = false /\ (1 <? a) = false /\
  ((0 =? a) = true \/ (a <? 0) = true).
Proof.
  intros H.
  assert (Hn : is_nan a = false).
  { apply is_nan_spec. intros E. rewrite FloatAxioms.leb_spec, E in H.
    discriminate H. }
  split; [exact Hn|].
  revert H.
  rewrite FloatAxioms.leb_spec, !FloatAxioms.eqb_spec, !FloatAxioms.ltb_spec.
  change (Prim2SF 0) with (S754_zero false).
  change (Prim2SF infinity) with (S754_infinity false).
  change (Prim2SF 1) with (S754_finite false 4503599627370496 (-52)).
  unfold SFleb, SFeqb, SFltb.
  destruct (Prim2SF a) as [s|s| |s m e]; simpl; try discriminate.
  - intros _. auto.
  - destruct s; [|discriminate]. intros _. auto.
  - destruct s; [|discriminate]. intros _. auto.
Qed.

Lemma Max_zero_nonpositive (a : float) :
  (a <=? 0) = true -> Max 0 a = 0.
Proof.
  intros H. destruct (leb_zero_cases a H) as (Hn & Hi & _ & Hz).
  unfold Max.
  change (0 =? infinity) with false. change (is_nan 0) with false.
  change (0 =? 0) with true. change (get_sign 0) with false.
  rewrite Hn, Hi. cbn [orb andb].
  destruct Hz as [Hz|Hz]; rewrite Hz; [reflexivity|].
  destruct (0 =? a); reflexivity.
Qed.

Lemma Min_one_nonpositive (a : float) :
  (a <=? 0) = true -> Min 1 a = a \/ Min 1 a = neg_infinity.
Proof.
  intros H. destruct (leb_zero_cases a H) as (Hn & _ & H1 & _).
  unfold Min.
  change (1 =? neg_infinity) with false. change (is_nan 1) with false.
  change (1 =? 0) with false.
  rewrite Hn, H1. cbn [orb andb].
  destruct (a =? neg_infinity); [now right | now left].
Qed.

Lemma clamp01_nonpositive (a : float) :
  (a <=? 0) = true -> clamp01 a = 0.
Proof.
  intros H. unfold clamp01.
  destruct (Min_one_nonpositive a H) as [-> | ->].
  - now apply Max_zero_nonpositive.
  - reflexivity.
Qed.

End FloatFacts.

(** ** The weight tables *)

(** C9: for each of the four modalities (text, image, audio, video) the
    entries of the default weight table, added up as the analyzers add them,
    give a sum within 0.01 of 1.0. *)
Theorem default_weights_sum_to_one :
  within 0.99 1.01 (TextAnalyzer.totalWeight TextAnalyzer.DefaultWeights) = true /\
  within 0.99 1.01
    (ImageAnalyzer.totalWeight ImageAnalyzer.DefaultImageWeights) = true /\
  within 0.99 1.01
    (AudioAnalyzer.totalWeight AudioAnalyzer.DefaultAudioWeights) = true /\
  within 0.99 1.01
    (VideoAnalyzer.totalWeight VideoAnalyzer.DefaultVideoWeights) = true.
Proof. repeat split; vm_compute; reflexivity. Qed.

(** ** The weighted aggregate *)

Lemma aggregate_is_clamped_mean (ss : SignalSet) :
  aggregate ss = clamp01 (weightedMean (weighted ss)).
Proof. destruct ss as [s|s|s|s]; destruct s; reflexivity. Qed.

(** A signal set whose sentence-variance signal is NaN and whose other
    signals are the neutral 0.5. *)
Example nan_signals_score :
  aggregate (TextSet {|
    TextAnalyzer.SentenceVariance := nan;
    TextAnalyzer.VocabularyRichness := 0.5;
    TextAnalyzer.Burstiness := 0.5;
    TextAnalyzer.PunctuationVariety := 0.5;
    TextAnalyzer.AIPhraseScore := 0.5;
    TextAnalyzer.WordLengthVariance := 0.5;
    TextAnalyzer.ContractionsUsage := 0.5;
    TextAnalyzer.RepetitionScore := 0.5 |}) = nan.
Proof. vm_compute. reflexivity. Qed.

(** C1, as stated, fails: the aggregate of a signal set holding a NaN is NaN,
    which is in no interval. *)
Lemma aggregate_range_fails_on_nan :
  ~ (forall ss : SignalSet, within 0 1 (aggregate ss) = true).
Proof.
  intros H.
  specialize (H (TextSet {|
    TextAnalyzer.SentenceVariance := nan;
    TextAnalyzer.VocabularyRichness := 0.5;
    TextAnalyzer.Burstiness := 0.5;
    TextAnalyzer.PunctuationVariety := 0.5;
    TextAnalyzer.AIPhraseScore := 0.5;
    TextAnalyzer.WordLengthVariance := 0.5;
    TextAnalyzer.ContractionsUsage := 0.5;
    TextAnalyzer.RepetitionScore := 0.5 |})).
  vm_compute in H. discriminate H.
Qed.

(** C1 (amended): for every signal set of every modality, the aggregate under
    the default weight table equals the clamp to [0,1] of the weighted mean
    (sum of signal times weight over sum of weights); whenever that mean is
    not NaN the aggregate lies in [0,1], whatever the size of the signals,
    and when the mean is NaN the aggregate is NaN. *)
Theorem aggregate_clamped_weighted_mean (ss : SignalSet) :
  aggregate ss = clamp01 (weightedMean (weighted ss)) /\
  (is_nan (weightedMean (weighted ss)) = false ->
   within 0 1 (aggregate ss) = true) /\
  (is_nan (weightedMean (weighted ss)) = true -> aggregate ss = nan).
Proof.
  rewrite aggregate_is_clamped_mean. split; [reflexivity|]. split.
  - apply clamp01_range.
  - apply clamp01_nan.
Qed.

Lemma aggregate_clamped_weighted_mean_witness :
  within 0 1 (aggregate (VideoSet {|
    VideoAnalyzer.MetadataScore := 7.5;
    VideoAnalyzer.ContainerAnalysis := 0.5;
    VideoAnalyzer.AudioPresence := -3;
    VideoAnalyzer.TemporalPattern := 0.5;
    VideoAnalyzer.EncodingSignature := infinity;
    VideoAnalyzer.BitrateConsistency := 0.5 |})) = true.
Proof.
  apply (aggregate_clamped_weighted_mean (VideoSet {|
    VideoAnalyzer.MetadataScore := 7.5;
    VideoAnalyzer.ContainerAnalysis := 0.5;
    VideoAnalyzer.AudioPresence := -3;
    VideoAnalyzer.TemporalPattern := 0.5;
    VideoAnalyzer.EncodingSignature := infinity;
    VideoAnalyzer.BitrateConsistency := 0.5 |})).
  vm_compute. reflexivity.
Defined.

(** ** Index and slice expressions *)

Section SliceFacts.

Context {A : Type}.
Implicit Types d : list A.

Lemma len_nonneg d : 0 <= len d.
Proof. unfold len. lia. Qed.

Lemma index_in_range d i (dflt : A) :
  0 <= i < len d -> index d i = Done (nth (Z.to_nat i) d dflt).
Proof.
  intros H. unfold index, len in *.
  replace (0 <=? i) with true by (symmetry; apply Z.leb_le; lia).
  replace (i <? Z.of_nat (List.length d)) with true
    by (symmetry; apply Z.ltb_lt; lia).
  simpl. rewrite (nth_error_nth' d dflt) by lia. reflexivity.
Qed.

Lemma index_done d i :
  0 <= i < len d -> exists x, index d i = Done x.
Proof.
  intros H. destruct d as [|a d'].
  - unfold len in H. simpl in H. lia.
  - exists (nth (Z.to_nat i) (a :: d') a). now apply index_in_range.
Qed.

Lemma slice_in_range d lo hi :
  0 <= lo <= hi -> hi <= len d ->
  slice d lo hi =
  Done (firstn (Z.to_nat (hi - lo)) (skipn (Z.to_nat lo) d)).
Proof.
  intros H1 H2. unfold slice.
  replace (0 <=? lo) with true by (symmetry; apply Z.leb_le; lia).
  replace (lo <=? hi) with true by (symmetry; apply Z.leb_le; lia).
  replace (hi <=? len d) with true by (symmetry; apply Z.leb_le; lia).
  reflexivity.
Qed.

Lemma slice_len d lo hi s :
  slice d lo hi = Done s -> len s = hi - lo.
Proof.
  unfold slice.
  destruct (0 <=? lo) eqn:E1; [|discriminate].
  destruct (lo <=? hi) eqn:E2; [|discriminate].
  destruct (hi <=? len d) eqn:E3; [|discriminate].
  apply Z.leb_le in E1, E2, E3. simpl. intros H. injection H as <-.
  unfold len in *. rewrite length_firstn, length_skipn. lia.
Qed.

(** Two slices agree up to [n] when their first [n] elements coincide. *)
Definition agree (n : Z) d1 d2 : Prop :=
  firstn (Z.to_nat n) d1 = firstn (Z.to_nat n) d2.

Lemma agree_len d1 d2 n :
  agree n d1 d2 -> 0 <= n -> Z.min (len d1) n = Z.min (len d2) n.
Proof.
  unfold agree, len. intros H Hn.
  apply (f_equal (@List.length A)) in H. rewrite !length_firstn in H. lia.
Qed.

Lemma agree_le d1 d2 n m :
  agree n d1 d2 -> m <= n -> agree m d1 d2.
Proof.
  unfold agree. intros H Hm.
  destruct (Z.le_gt_cases 0 m) as [H0|H0].
  - replace (Z.to_nat m) with (Nat.min (Z.to_nat m) (Z.to_nat n)) by lia.
    rewrite <- !firstn_firstn. now rewrite H.
  - replace (Z.to_nat m) with 0%nat by lia. reflexivity.
Qed.

Lemma agree_ltb d1 d2 n k :
  agree n d1 d2 -> k <= n -> (len d1 <? k) = (len d2 <? k).
Proof.
  intros H Hk. destruct (Z.le_gt_cases 0 n) as [Hn|Hn].
  - pose proof (agree_len _ _ _ H Hn).
    destruct (Z.ltb_spec (len d1) k), (Z.ltb_spec (len d2) k);
      try reflexivity; lia.
  - pose proof (len_nonneg d1). pose proof (len_nonneg d2).
    destruct (Z.ltb_spec (len d1) k), (Z.ltb_spec (len d2) k);
      try reflexivity; lia.
Qed.

Lemma agree_leb d1 d2 n k :
  agree n d1 d2 -> k <= n -> (k <=? len d1) = (k <=? len d2).
Proof.
  intros H Hk. rewrite !Z.leb_antisym. f_equal. eapply agree_ltb; eassumption.
Qed.

Lemma agree_gtb d1 d2 n k :
  agree n d1 d2 -> k < n -> (k <? len d1) = (k <? len d2).
Proof.
  intros H Hk. rewrite !Z.ltb_antisym. f_equal.
  destruct (Z.le_gt_cases 0 n) as [Hn|Hn].
  - pose proof (agree_len _ _ _ H Hn).
    destruct (Z.leb_spec (len d1) k), (Z.leb_spec (len d2) k);
      try reflexivity; lia.
  - pose proof (len_nonneg d1). pose proof (len_nonneg d2).
    destruct (Z.leb_spec (len d1) k), (Z.leb_spec (len d2) k);
      try reflexivity; lia.
Qed.

Lemma agree_nth_error d1 d2 n k :
  agree n d1 d2 -> (k < Z.to_nat n)%nat -> nth_error d1 k = nth_error d2 k.
Proof.
  unfold agree. intros H Hk.
  pose proof (nth_error_firstn (Z.to_nat n) d1 k) as E1.
  pose proof (nth_error_firstn (Z.to_nat n) d2 k) as E2.
  apply Nat.ltb_lt in Hk. rewrite Hk in E1, E2.
  rewrite <- E1, <- E2, H. reflexivity.
Qed.

Lemma agree_index d1 d2 n i :
  agree n d1 d2 -> i < n -> index d1 i = index d2 i.
Proof.
  intros H Hi. unfold index.
  destruct (0 <=? i) eqn:E0; [|reflexivity]. apply Z.leb_le in E0.
  rewrite (agree_gtb _ _ _ i H Hi).
  rewrite (agree_nth_error _ _ _ (Z.to_nat i) H) by lia. reflexivity.
Qed.

Lemma agree_slice d1 d2 n lo hi :
  agree n d1 d2 -> hi <= n -> slice d1 lo hi = slice d2 lo hi.
Proof.
  intros H Hhi. unfold slice.
  rewrite (agree_leb _ _ _ hi H Hhi).
  destruct (0 <=? lo) eqn:E1; [|reflexivity].
  destruct (lo <=? hi) eqn:E2; [|reflexivity].
  destruct (hi <=? len d2) eqn:E3; [|reflexivity].
  apply Z.leb_le in E1, E2, E3. simpl. f_equal.
  rewrite !firstn_skipn_comm.
  replace (Z.to_nat lo + Z.to_nat (hi - lo))%nat with (Z.to_nat hi) by lia.
  f_equal. apply (agree_le _ _ _ hi H Hhi).
Qed.

End SliceFacts.

Lemma min_spec (a b : Z) : min a b = Z.min a b.
Proof. unfold min. destruct (Z.ltb_spec a b); lia. Qed.

(** ** Format sniffers *)

(** Rewrites every index and slice expression that the context shows to be
    in range into its value, then splits on the conditions. *)
Ltac in_range :=
  repeat match goal with
  | |- context [index ?d ?i] => rewrite (index_in_range d i x00) by lia
  | |- context [slice ?d ?lo ?hi] => rewrite (slice_in_range d lo hi) by lia
  end.

Ltac split_conditions :=
  cbv beta iota;
  repeat (match goal with
          | |- context [if ?b then _ else _] => destruct b
          end; cbv beta iota).

Ltac run_conditions :=
  unfold sliceIs, byteIs, byteHas; in_range; unfold andE, orE, bind;
  split_conditions.
Lemma detectImageFormat_total (data : bytes) :
  exists format, ImageAnalyzer.detectImageFormat data = Done format.
Proof.
  unfold ImageAnalyzer.detectImageFormat.
  destruct (Z.ltb_spec (len data) 8); [eauto|].
  destruct (Z.leb_spec 12 (len data)); run_conditions; eauto.
Qed.

Lemma detectAudioFormat_total (data : bytes) :
  exists format, AudioAnalyzer.detectAudioFormat data = Done format.
Proof.
  unfold AudioAnalyzer.detectAudioFormat.
  destruct (Z.ltb_spec (len data) 12); [eauto|].
  destruct (Z.leb_spec 12 (len data)); [|lia].
  destruct (Z.leb_spec 8 (len data)); [|lia].
  run_conditions; eauto.
Qed.

Lemma detectVideoFormat_total (data : bytes) :
  exists format, VideoAnalyzer.detectVideoFormat data = Done format.
Proof.
  unfold VideoAnalyzer.detectVideoFormat.
  destruct (Z.ltb_spec (len data) 12); [eauto|].
  destruct (Z.leb_spec 12 (len data)); [|lia].
  destruct (Z.leb_spec 8 (len data)); [|lia].
  destruct (Z.leb_spec 4 (len data)); [|lia].
  assert (Hmin : 0 <= min 100 (len data) <= len data)
    by (rewrite min_spec; lia).
  destruct (Z.ltb_spec 376 (len data)); run_conditions; eauto.
Qed.

(** Moves every test on the length and every index or slice expression
    from [d1] to [d2] when the two agree far enough. *)
Ltac to_agreeing d1 d2 n H :=
  repeat match goal with
  | |- context [len d1 <? ?k] => rewrite (agree_ltb d1 d2 n k H) by lia
  | |- context [?k <=? len d1] => rewrite (agree_leb d1 d2 n k H) by lia
  | |- context [?k <? len d1] => rewrite (agree_gtb d1 d2 n k H) by lia
  | |- context [index d1 ?i] => rewrite (agree_index d1 d2 n i H) by lia
  | |- context [slice d1 ?lo ?hi] =>
      rewrite (agree_slice d1 d2 n lo hi H) by lia
  end.

Lemma detectImageFormat_prefix (d1 d2 : bytes) :
  agree 12 d1 d2 ->
  ImageAnalyzer.detectImageFormat d1 = ImageAnalyzer.detectImageFormat d2.
Proof.
  intros H. unfold ImageAnalyzer.detectImageFormat, byteIs.
  to_agreeing d1 d2 12 H. reflexivity.
Qed.

Lemma detectAudioFormat_prefix (d1 d2 : bytes) :
  agree 12 d1 d2 ->
  AudioAnalyzer.detectAudioFormat d1 = AudioAnalyzer.detectAudioFormat d2.
Proof.
  intros H. unfold AudioAnalyzer.detectAudioFormat, byteIs, byteHas, sliceIs.
  to_agreeing d1 d2 12 H. reflexivity.
Qed.

Lemma detectVideoFormat_prefix (d1 d2 : bytes) :
  agree 377 d1 d2 ->
  VideoAnalyzer.detectVideoFormat d1 = VideoAnalyzer.detectVideoFormat d2.
Proof.
  intros H. unfold VideoAnalyzer.detectVideoFormat, byteIs, sliceIs.
  assert (Hmin : min 100 (len d1) = min 100 (len d2)).
  { rewrite !min_spec, !(Z.min_comm 100).
    apply agree_len; [|lia]. apply (agree_le _ _ 377); [exact H | lia]. }
  rewrite Hmin.
  assert (Hhi : min 100 (len d2) <= 377) by (rewrite min_spec; lia).
  to_agreeing d1 d2 377 H. reflexivity.
Qed.

(** C5: each of the three format sniffers returns a format for every byte
    buffer (no index or slice expression is ever out of range), returns
    "unknown" on a buffer shorter than its header (8 bytes for images, 12
    for audio and video, so in particular on 0 to 3 bytes), and depends on
    a prefix of the buffer only: two buffers with the same first 12 bytes
    (377 for video) get the same format. *)
Theorem format_sniffers_total_and_prefix_determined (data : bytes) :
  (exists fi fa fv,
     ImageAnalyzer.detectImageFormat data = Done fi /\
     AudioAnalyzer.detectAudioFormat data = Done fa /\
     VideoAnalyzer.detectVideoFormat data = Done fv) /\
  (len data < 8 -> ImageAnalyzer.detectImageFormat data = Done "unknown") /\
  (len data < 12 ->
   AudioAnalyzer.detectAudioFormat data = Done "unknown" /\
   VideoAnalyzer.detectVideoFormat data = Done "unknown") /\
  (forall data' : bytes,
     (agree 12 data data' ->
      ImageAnalyzer.detectImageFormat data =
      ImageAnalyzer.detectImageFormat data' /\
      AudioAnalyzer.detectAudioFormat data =
      AudioAnalyzer.detectAudioFormat data') /\
     (agree 377 data data' ->
      VideoAnalyzer.detectVideoFormat data =
      VideoAnalyzer.detectVideoFormat data')).
Proof.
  split; [|split; [|split]].
  - destruct (detectImageFormat_total data) as [fi Hi].
    destruct (detectAudioFormat_total data) as [fa Ha].
    destruct (detectVideoFormat_total data) as [fv Hv].
    exists fi, fa, fv. auto.
  - intros H. unfold ImageAnalyzer.detectImageFormat.
    apply Z.ltb_lt in H. now rewrite H.
  - intros H. unfold AudioAnalyzer.detectAudioFormat,
      VideoAnalyzer.detectVideoFormat.
    apply Z.ltb_lt in H. now rewrite H.
  - intros data'. split.
    + intros H. split.
      * now apply detectImageFormat_prefix.
      * now apply detectAudioFormat_prefix.
    + apply detectVideoFormat_prefix.
Qed.

Lemma format_sniffers_witness :
  ImageAnalyzer.detectImageFormat [x42; x4d] = Done "unknown" /\
  VideoAnalyzer.detectVideoFormat (lit "FLV" ++ [x01; x05])
  = VideoAnalyzer.detectVideoFormat (lit "FLV" ++ [x01; x05]).
Proof.
  destruct (format_sniffers_total_and_prefix_determined [x42; x4d])
    as (_ & Hshort & _).
  destruct (format_sniffers_total_and_prefix_determined
              (lit "FLV" ++ [x01; x05])) as (_ & _ & _ & Hpre).
  split.
  - apply Hshort. vm_compute. reflexivity.
  - apply (Hpre (lit "FLV" ++ [x01; x05])). reflexivity.
Defined.

(** The brand lookup of [detectVideoFormat] is never reached: any buffer of
    12 bytes or more with "ftyp" at bytes 4 to 7 is reported as "mp4". *)
Lemma ftyp_always_mp4 (data : bytes) :
  12 <= len data ->
  slice data 4 8 = Done (lit "ftyp") ->
  VideoAnalyzer.detectVideoFormat data = Done "mp4".
Proof.
  intros Hlen Hftyp. unfold VideoAnalyzer.detectVideoFormat.
  destruct (Z.ltb_spec (len data) 12); [lia|].
  destruct (Z.leb_spec 8 (len data)); [|lia].
  rewrite slice_in_range in Hftyp by lia. injection Hftyp as Hftyp.
  change (Z.to_nat (8 - 4)) with 4%nat in Hftyp.
  change (Z.to_nat 4) with 4%nat in Hftyp.
  destruct data as [|b0 [|b1 [|b2 [|b3 [|b4 [|b5 [|b6 [|b7 rest]]]]]]]];
    try discriminate Hftyp.
  simpl in Hftyp. injection Hftyp as -> -> -> ->.
  unfold byteIs. rewrite !(index_in_range _ _ x00) by lia. reflexivity.
Qed.

(** C6 fails on the code: the QuickTime vector of the repository's own
    format test, an [ftyp] atom with brand "qt  ", is reported as "mp4",
    where the test and the brand table ask for "mov". *)
Theorem quicktime_brand_reported_as_mp4 :
  VideoAnalyzer.detectVideoFormat
    ([x00; x00; x00; x18] ++ lit "ftypqt  ")
  = Done "mp4".
Proof. vm_compute. reflexivity. Qed.

(** ** Loops on fuel *)

(** A loop whose turns never panic and decrease a measure that is positive
    whenever the condition holds returns, given fuel for the measure. *)
Lemma forLoop_returns {S : Type} (cond : S -> bool)
    (body : S -> exec (turn S)) (Inv : S -> Prop) (measure : S -> Z) :
  (forall s, Inv s -> cond s = true ->
     0 < measure s /\
     exists t, body s = Done t /\
       match t with
       | Continue s' => Inv s' /\ measure s' < measure s
       | Break _ => True
       end) ->
  forall fuel s, Inv s -> measure s <= Z.of_nat fuel ->
  exists s', forLoop fuel cond body s = Done s'.
Proof.
  intros Hbody fuel. induction fuel as [|fuel IH]; intros s Hs Hm.
  - simpl. destruct (cond s) eqn:Hc; [|eauto].
    destruct (Hbody s Hs Hc) as [Hpos _]. lia.
  - simpl. destruct (cond s) eqn:Hc; [|eauto].
    destruct (Hbody s Hs Hc) as (Hpos & t & Ht & Hstep). rewrite Ht. simpl.
    destruct t as [s'|s']; [|eauto].
    destruct Hstep as [Hs' Hlt]. apply IH; [exact Hs' | lia].
Qed.

(** ** The MP4 atom walk *)

Section AtomWalk.

Variable P : Platform.

Lemma beUint32_done (b : bytes) :
  len b = 4 -> exists n, beUint32 b = Done n.
Proof.
  intros H. unfold beUint32.
  rewrite !(index_in_range b _ x00) by lia. simpl. eauto.
Qed.

Lemma declaredSize_done (data : bytes) (off : Z) :
  0 <= off -> off + 4 <= len data ->
  exists n, VideoAnalyzer.declaredSize data off = Done n.
Proof.
  intros H0 H4. unfold VideoAnalyzer.declaredSize.
  pose proof (slice_in_range data off (off + 4) ltac:(lia) H4) as Hs.
  rewrite Hs. simpl. apply beUint32_done.
  apply slice_len in Hs. lia.
Qed.

Lemma min_bounds (a b lo hi : Z) :
  lo <= a -> lo <= b -> a <= hi -> lo <= min a b <= hi.
Proof. rewrite min_spec. lia. Qed.

(** A turn of the nested walk, at an offset that leaves a full header: it
    stops on a size below 8 or beyond the end of the moov atom, and
    otherwise steps over the atom. *)
Lemma parseMovieAtomTurn_spec (order : Z -> VideoAnalyzer.iteration)
    (data : bytes) (w : VideoAnalyzer.walk) :
  0 <= VideoAnalyzer.offset w < len data - 8 ->
  exists declared,
    VideoAnalyzer.declaredSize data (VideoAnalyzer.offset w) = Done declared /\
    (declared < 8 \/ len data - VideoAnalyzer.offset w < declared ->
     VideoAnalyzer.parseMovieAtomTurn P order data w = Done (Break w)) /\
    (8 <= declared <= len data - VideoAnalyzer.offset w ->
     exists w',
       VideoAnalyzer.parseMovieAtomTurn P order data w = Done (Continue w') /\
       VideoAnalyzer.offset w' = VideoAnalyzer.offset w + declared).
Proof.
  intros Hoff.
  destruct (declaredSize_done data (VideoAnalyzer.offset w)) as [n Hn];
    try lia.
  exists n. split; [exact Hn|].
  unfold VideoAnalyzer.parseMovieAtomTurn.
  destruct (Z.ltb_spec (len data) (VideoAnalyzer.offset w + 8)); [lia|].
  rewrite Hn. cbn [bind].
  rewrite (slice_in_range data (VideoAnalyzer.offset w + 4)) by lia.
  cbn [bind]. split.
  - intros Hbad.
    destruct (Z.ltb_spec n 8); [reflexivity|].
    destruct (Z.ltb_spec (len data) (VideoAnalyzer.offset w + n));
      [reflexivity | lia].
  - intros Hok.
    destruct (Z.ltb_spec n 8); [lia|].
    destruct (Z.ltb_spec (len data) (VideoAnalyzer.offset w + n)); [lia|].
    cbn [orb].
    pose proof (min_bounds (VideoAnalyzer.offset w + n)
                  (VideoAnalyzer.offset w + 1000)
                  (VideoAnalyzer.offset w + 8) (len data)) as Hmin.
    repeat match goal with
    | |- context [if ?b then _ else _] => destruct b
    end;
    repeat (rewrite slice_in_range by lia; cbn [bind]);
    eexists; split; reflexivity.
Qed.

Lemma parseMovieAtom_returns (order : Z -> VideoAnalyzer.iteration)
    (data : bytes) (meta : VideoAnalyzer.VideoMetadata)
    (stats : VideoAnalyzer.VideoStats) :
  exists r, VideoAnalyzer.parseMovieAtom P order data meta stats = Done r.
Proof.
  unfold VideoAnalyzer.parseMovieAtom.
  destruct (forLoop_returns
              (fun w => VideoAnalyzer.offset w <? len data - 8)
              (VideoAnalyzer.parseMovieAtomTurn P order data)
              (fun w => 0 <= VideoAnalyzer.offset w)
              (fun w => len data - VideoAnalyzer.offset w))
    with (fuel := List.length data)
         (s := {| VideoAnalyzer.offset := 8; VideoAnalyzer.meta := meta;
                  VideoAnalyzer.stats := stats |}) as [w' Hw'].
  - intros w Hinv Hcond. apply Z.ltb_lt in Hcond. split; [lia|].
    destruct (parseMovieAtomTurn_spec order data w) as (n & _ & Hstop & Hgo);
      [lia|].
    destruct (Z.lt_ge_cases n 8) as [Hlt|Hge].
    { eexists. split; [apply Hstop; lia | exact I]. }
    destruct (Z.lt_ge_cases (len data - VideoAnalyzer.offset w) n)
      as [Hover|Hfit].
    { eexists. split; [apply Hstop; lia | exact I]. }
    destruct Hgo as (w1 & Hturn & Hoff); [lia|].
    exists (Continue w1). split; [exact Hturn|]. lia.
  - simpl. lia.
  - simpl. unfold len. lia.
  - rewrite Hw'. simpl. eauto.
Qed.

(** A turn of the top-level walk, at an offset that leaves a full header:
    it stops on a size below 8, and otherwise steps over the atom, whose
    size is cut down to what is left of the buffer. *)
Lemma analyzeMP4Turn_spec (order : Z -> Z -> VideoAnalyzer.iteration)
    (data : bytes) (w : VideoAnalyzer.walk) :
  0 <= VideoAnalyzer.offset w < len data - 8 ->
  exists declared,
    VideoAnalyzer.declaredSize data (VideoAnalyzer.offset w) = Done declared /\
    (declared < 8 ->
     VideoAnalyzer.analyzeMP4Turn P order data w = Done (Break w)) /\
    (8 <= declared ->
     exists w',
       VideoAnalyzer.analyzeMP4Turn P order data w = Done (Continue w') /\
       VideoAnalyzer.offset w' =
       VideoAnalyzer.offset w
       + Z.min declared (len data - VideoAnalyzer.offset w)).
Proof.
  intros Hoff.
  destruct (declaredSize_done data (VideoAnalyzer.offset w)) as [n Hn];
    try lia.
  exists n. split; [exact Hn|].
  unfold VideoAnalyzer.analyzeMP4Turn.
  destruct (Z.ltb_spec (len data) (VideoAnalyzer.offset w + 8)); [lia|].
  rewrite Hn. cbn [bind].
  rewrite (slice_in_range data (VideoAnalyzer.offset w + 4)) by lia.
  cbn [bind]. split.
  - intros Hbad. destruct (Z.ltb_spec n 8); [reflexivity | lia].
  - intros Hok. destruct (Z.ltb_spec n 8); [lia|].
    set (atomSize := if len data <? VideoAnalyzer.offset w + n
                     then len data - VideoAnalyzer.offset w else n).
    assert (Hsize : atomSize = Z.min n (len data - VideoAnalyzer.offset w)).
    { unfold atomSize.
      destruct (Z.ltb_spec (len data) (VideoAnalyzer.offset w + n)); lia. }
    assert (Hfit : 8 <= atomSize <= len data - VideoAnalyzer.offset w) by lia.
    clearbody atomSize. rewrite <- Hsize.
    pose proof (min_bounds (VideoAnalyzer.offset w + atomSize)
                  (VideoAnalyzer.offset w + 100)
                  (VideoAnalyzer.offset w + 8) (len data)) as Hmin1.
    pose proof (min_bounds (VideoAnalyzer.offset w + atomSize)
                  (VideoAnalyzer.offset w + 500)
                  (VideoAnalyzer.offset w + 8) (len data)) as Hmin2.
    destruct (bytes_eqb _ (lit "moov")).
    { rewrite slice_in_range by lia. cbn [bind].
      match goal with
      | |- context [VideoAnalyzer.parseMovieAtom P ?o ?d ?m ?s] =>
          destruct (parseMovieAtom_returns o d m s) as [[m' s'] Hr];
          rewrite Hr
      end.
      cbn [bind]. eexists; split; reflexivity. }
    repeat match goal with
    | |- context [if ?b then _ else _] => destruct b
    end;
    repeat (rewrite slice_in_range by lia; cbn [bind]);
    eexists; split; reflexivity.
Qed.

Lemma analyzeMP4_returns (order : Z -> Z -> VideoAnalyzer.iteration)
    (data : bytes) :
  exists r, VideoAnalyzer.analyzeMP4 P order data = Done r.
Proof.
  unfold VideoAnalyzer.analyzeMP4.
  destruct (forLoop_returns
              (fun w => VideoAnalyzer.offset w <? len data - 8)
              (VideoAnalyzer.analyzeMP4Turn P order data)
              (fun w => 0 <= VideoAnalyzer.offset w)
              (fun w => len data - VideoAnalyzer.offset w))
    with (fuel := List.length data)
         (s := {| VideoAnalyzer.offset := 0;
                  VideoAnalyzer.meta := VideoAnalyzer.newMetadata "mp4" true;
                  VideoAnalyzer.stats := VideoAnalyzer.newStats (len data) |})
    as [w' Hw'].
  - intros w Hinv Hcond. apply Z.ltb_lt in Hcond. split; [lia|].
    destruct (analyzeMP4Turn_spec order data w) as (n & _ & Hstop & Hgo);
      [lia|].
    destruct (Z.lt_ge_cases n 8) as [Hlt|Hge].
    { eexists. split; [apply Hstop; lia | exact I]. }
    destruct Hgo as (w1 & Hturn & Hoff); [lia|].
    exists (Continue w1). split; [exact Hturn|]. lia.
  - simpl. lia.
  - simpl. unfold len. lia.
  - rewrite Hw'. simpl. eauto.
Qed.

End AtomWalk.

(** C4, as stated, fails inside the moov atom: there an atom that declares
    more than what is left is not clamped, it ends the walk. *)
Lemma nested_overrun_is_not_clamped :
  ~ (forall (P : Platform) (order : Z -> VideoAnalyzer.iteration)
            (data : bytes) (w : VideoAnalyzer.walk) (declared : Z),
       0 <= VideoAnalyzer.offset w < len data - 8 ->
       VideoAnalyzer.declaredSize data (VideoAnalyzer.offset w)
       = Done declared ->
       8 <= declared ->
       len data - VideoAnalyzer.offset w < declared ->
       exists w',
         VideoAnalyzer.parseMovieAtomTurn P order data w = Done (Continue w')
         /\ VideoAnalyzer.offset w' = len data).
Proof.
  intros H.
  destruct (H asciiPlatform (fun _ => writtenOrder) truncatedMoov
              {| VideoAnalyzer.offset := 8;
                 VideoAnalyzer.meta := VideoAnalyzer.newMetadata "mp4" true;
                 VideoAnalyzer.stats := VideoAnalyzer.newStats 25 |}
              256) as (w' & Hturn & _).
  - vm_compute. split; [discriminate | reflexivity].
  - vm_compute. reflexivity.
  - lia.
  - vm_compute. reflexivity.
  - vm_compute in Hturn. discriminate Hturn.
Qed.

(** C4 (amended): for every byte buffer, whatever the platform and the
    iteration orders, [analyzeMP4] returns, and so does [parseMovieAtom] on
    it: no index or slice is out of range and the fuel, the length of the
    buffer, is never used up.  At every turn of the top-level walk the size
    field is read in range; a declared size below 8 ends the walk, and any
    other atom is stepped over with its size clamped to what is left of the
    buffer, so that the offset grows strictly and stays within the buffer.
    At every turn of the walk inside moov a declared size below 8, or one
    larger than what is left, ends the walk, and any other atom is stepped
    over by its declared size, the offset growing strictly. *)
Theorem mp4_atom_walk_safe (P : Platform)
    (order : Z -> Z -> VideoAnalyzer.iteration) (data : bytes) :
  (exists r, VideoAnalyzer.analyzeMP4 P order data = Done r) /\
  (forall order' meta stats,
     exists r, VideoAnalyzer.parseMovieAtom P order' data meta stats = Done r)
  /\
  (forall w : VideoAnalyzer.walk,
     0 <= VideoAnalyzer.offset w < len data - 8 ->
     exists declared,
       VideoAnalyzer.declaredSize data (VideoAnalyzer.offset w)
       = Done declared /\
       (declared < 8 ->
        VideoAnalyzer.analyzeMP4Turn P order data w = Done (Break w)) /\
       (8 <= declared ->
        exists w',
          VideoAnalyzer.analyzeMP4Turn P order data w = Done (Continue w') /\
          VideoAnalyzer.offset w' =
          VideoAnalyzer.offset w
          + Z.min declared (len data - VideoAnalyzer.offset w) /\
          VideoAnalyzer.offset w < VideoAnalyzer.offset w' <= len data)) /\
  (forall order' (w : VideoAnalyzer.walk),
     0 <= VideoAnalyzer.offset w < len data - 8 ->
     exists declared,
       VideoAnalyzer.declaredSize data (VideoAnalyzer.offset w)
       = Done declared /\
       (declared < 8 \/ len data - VideoAnalyzer.offset w < declared ->
        VideoAnalyzer.parseMovieAtomTurn P order' data w = Done (Break w)) /\
       (8 <= declared <= len data - VideoAnalyzer.offset w ->
        exists w',
          VideoAnalyzer.parseMovieAtomTurn P order' data w
          = Done (Continue w') /\
          VideoAnalyzer.offset w' = VideoAnalyzer.offset w + declared /\
          VideoAnalyzer.offset w < VideoAnalyzer.offset w' <= len data)).
Proof.
  split; [apply analyzeMP4_returns|].
  split; [intros; apply parseMovieAtom_returns|].
  split.
  - intros w Hoff.
    destruct (analyzeMP4Turn_spec P order data w Hoff)
      as (n & Hn & Hstop & Hgo).
    exists n. split; [exact Hn|]. split; [exact Hstop|].
    intros Hge. destruct (Hgo Hge) as (w' & Hturn & Hoff').
    exists w'. split; [exact Hturn|]. split; [exact Hoff'|]. lia.
  - intros order' w Hoff.
    destruct (parseMovieAtomTurn_spec P order' data w Hoff)
      as (n & Hn & Hstop & Hgo).
    exists n. split; [exact Hn|]. split; [exact Hstop|].
    intros Hfit. destruct (Hgo Hfit) as (w' & Hturn & Hoff').
    exists w'. split; [exact Hturn|]. split; [exact Hoff'|]. lia.
Qed.

(** At the [mdat] header of [truncatedFile], offset 16 of 32, the declared
    4096 bytes are clamped to the 16 that are left. *)
Lemma mp4_atom_walk_safe_witness :
  exists declared,
    VideoAnalyzer.declaredSize truncatedFile 16 = Done declared /\
    exists w',
      VideoAnalyzer.analyzeMP4Turn asciiPlatform (fun _ _ => writtenOrder)
        truncatedFile
        {| VideoAnalyzer.offset := 16;
           VideoAnalyzer.meta := VideoAnalyzer.newMetadata "mp4" true;
           VideoAnalyzer.stats := VideoAnalyzer.newStats 32 |}
      = Done (Continue w') /\
      VideoAnalyzer.offset w' = 32.
Proof.
  destruct (mp4_atom_walk_safe asciiPlatform (fun _ _ => writtenOrder)
              truncatedFile) as (_ & _ & Hturn & _).
  destruct (Hturn {| VideoAnalyzer.offset := 16;
                     VideoAnalyzer.meta := VideoAnalyzer.newMetadata "mp4" true;
                     VideoAnalyzer.stats := VideoAnalyzer.newStats 32 |})
    as (declared & Hdecl & _ & Hgo).
  - vm_compute. split; [discriminate | reflexivity].
  - exists declared. split; [exact Hdecl|].
    assert (Hd : declared = 4096).
    { vm_compute in Hdecl. injection Hdecl as <-. reflexivity. }
    destruct Hgo as (w' & Hw' & Hoff & _); [lia|].
    exists w'. split; [exact Hw'|]. rewrite Hoff, Hd. reflexivity.
Defined.

(** ** The content hash *)

(** C10: for every input with non-empty text the content hash is the
    hex-encoded SHA-256 digest of the text alone, so that any two inputs
    with that same text have the same hash, whatever their data, URL,
    file name and content type. *)
Theorem content_hash_of_text (input : Detector.DetectionInput) :
  Detector.Text input <> [] ->
  Detector.hashContent input = hexEncode (SHA256.sum (Detector.Text input)) /\
  forall input' : Detector.DetectionInput,
    Detector.Text input' = Detector.Text input ->
    Detector.hashContent input' = Detector.hashContent input.
Proof.
  intros Htext.
  assert (H : forall i, Detector.Text i = Detector.Text input ->
            Detector.hashContent i
            = hexEncode (SHA256.sum (Detector.Text input))).
  { intros i Hi. unfold Detector.hashContent. rewrite Hi.
    destruct (Detector.Text input); [now elim Htext | reflexivity]. }
  split.
  - now apply H.
  - intros input' Hsame. rewrite (H input' Hsame). symmetry. now apply H.
Qed.

Lemma content_hash_of_text_witness :
  Detector.hashContent
    {| Detector.URL := lit "https://example.org/a.png";
       Detector.Text := lit "abc";
       Detector.Data := [xff; xd8; xff];
       Detector.Filename := [];
       Detector.ContentType_ := "image" |}
  = lit "ba7816bf8f01cfea414140de5dae2223b00361a396177a9cb410ff61f20015ad".
Proof.
  refine (eq_trans (proj1 (content_hash_of_text _ _)) _).
  - discriminate.
  - vm_compute. reflexivity.
Defined.

(** ** Short texts *)

Section ShortText.

Variable P : Platform.
Variable order : list bytes -> list bytes.

Lemma insertFloat_keeps (x y : float) (l : list float) :
  In x l -> In x (insertFloat y l).
Proof.
  unfold insertFloat. destruct (existsb _ l); [auto | now right].
Qed.

Lemma insertFloat_adds (y : float) (l : list float) :
  In y (insertFloat y l).
Proof.
  unfold insertFloat. destruct (existsb (Leibniz.eqb y) l) eqn:E.
  - apply existsb_exists in E. destruct E as (z & Hz & Heq).
    apply FloatAxioms.Leibniz.eqb_spec in Heq. now subst z.
  - now left.
Qed.

Lemma fold_insert_keeps (x : float) (new l : list float) :
  In x l -> In x (fold_right insertFloat l new).
Proof.
  intros H. induction new as [|y new IH]; simpl; [exact H|].
  now apply insertFloat_keeps.
Qed.

Lemma fold_insert_adds (x : float) (new l : list float) :
  In x new -> In x (fold_right insertFloat l new).
Proof.
  induction new as [|y new IH]; simpl; [contradiction|].
  intros [->|H]; [apply insertFloat_adds | apply insertFloat_keeps; auto].
Qed.

(** What the loop over the phrase table leaves: no match and a total of
    0, or a total that is among the reachable sums. *)
Definition phraseState (sums : list float) (acc : list string * float * Z)
    : Prop :=
  (snd acc = 0 /\ snd (fst acc) = 0%float) \/
  (0 < snd acc /\ In (snd (fst acc)) sums).

Lemma matchPhrases_reach (lowerText : bytes)
    (phrases : list (string * float)) :
  forall sums acc,
    phraseState sums acc ->
    phraseState (reachAll phrases sums)
      (TextAnalyzer.matchPhrases lowerText phrases acc).
Proof.
  unfold TextAnalyzer.matchPhrases.
  induction phrases as [|p rest IH]; intros sums acc Hacc; [exact Hacc|].
  cbn [fold_left reachAll]. apply IH.
  destruct acc as [[detected tw] mc]. unfold phraseState in *. simpl in *.
  destruct (contains lowerText (lit (fst p))); simpl.
  - right. split; [destruct Hacc as [[-> _]|[H _]]; lia|].
    unfold reachStep.
    destruct Hacc as [[_ ->]|[_ Hin]].
    + apply fold_insert_adds. now left.
    + apply fold_insert_adds. right. apply in_map_iff. eauto.
  - destruct Hacc as [H|[H Hin]]; [now left|].
    right. split; [exact H|]. unfold reachStep. now apply fold_insert_keeps.
Qed.

Lemma reachable_weights_saturate :
  forallb
    (fun tw =>
       forallb
         (fun wc => Leibniz.eqb (Min (tw / (float64 wc / 100.0)) 1.0) 1)
         [0; 1; 2])
    (reachAll TextAnalyzer.aiPhrases []) = true.
Proof. vm_compute. reflexivity. Qed.

(** On a text of fewer than 3 words the phrase signal is 0 or 1. *)
Lemma detectAIPhrases_short (text : bytes) :
  len (TextAnalyzer.tokenize text) < 3 ->
  fst (TextAnalyzer.detectAIPhrases P text) = 0%float \/
  fst (TextAnalyzer.detectAIPhrases P text) = 1%float.
Proof.
  intros Hwords. unfold TextAnalyzer.detectAIPhrases.
  assert (Hreach : phraseState (reachAll TextAnalyzer.aiPhrases [])
            (TextAnalyzer.matchPhrases (toLower P text)
               TextAnalyzer.aiPhrases ([], 0%float, 0))).
  { apply matchPhrases_reach. left. split; reflexivity. }
  pose proof reachable_weights_saturate as Hsat.
  remember (reachAll TextAnalyzer.aiPhrases []) as sums eqn:Hsums.
  clear Hsums.
  destruct (TextAnalyzer.matchPhrases (toLower P text) TextAnalyzer.aiPhrases
              ([], 0%float, 0)) as [[detected tw] mc].
  unfold phraseState in Hreach. cbn [fst snd] in Hreach.
  destruct Hreach as [[Hmc _]|[Hmc Hin]].
  - subst mc. now left.
  - destruct (Z.eqb_spec mc 0); [lia|]. right. cbn [fst].
    rewrite forallb_forall in Hsat. specialize (Hsat tw Hin).
    rewrite forallb_forall in Hsat.
    pose proof (len_nonneg (TextAnalyzer.tokenize text)) as Hnn.
    assert (Hwc : In (len (TextAnalyzer.tokenize text)) [0; 1; 2])
      by (cbn [In]; lia).
    apply Hsat in Hwc. now apply FloatAxioms.Leibniz.eqb_spec in Hwc.
Qed.

End ShortText.

(** ** Runes and punctuation counts *)

Lemma lor_le_add (a b : Z) :
  0 <= a -> 0 <= b -> 0 <= Z.lor a b <= a + b.
Proof.
  intros Ha Hb. split; [now apply Z.lor_nonneg|].
  pose proof (Z.add_lor_land a b).
  assert (0 <= Z.land a b) by (apply Z.land_nonneg; now left). lia.
Qed.

Lemma land_low_bits (x n : Z) :
  0 <= n -> 0 <= Z.land x (Z.ones n) < 2 ^ n.
Proof.
  intros Hn. rewrite Z.land_ones by exact Hn. apply Z.mod_pos_bound.
  now apply Z.pow_pos_nonneg.
Qed.

Definition validRune (r : Z) : Prop := 0 <= r <= 0x10FFFF.

Lemma decodeRunes_valid (n : nat) :
  forall s : list Z,
    (List.length s <= n)%nat ->
    (forall b, In b s -> 0 <= b < 256) ->
    forall r, In r (TextAnalyzer.decodeRunes s) -> validRune r.
Proof.
  induction n as [|n IH]; intros s Hlen Hbytes r Hr.
  - destruct s; [contradiction | simpl in Hlen; lia].
  - destruct s as [|b0 r0]; [contradiction|].
    assert (Hb0 : 0 <= b0 < 256) by (apply Hbytes; now left).
    assert (Hrest : forall t, (List.length t <= List.length r0)%nat ->
              (forall b, In b t -> In b r0) ->
              forall r, In r (TextAnalyzer.decodeRunes t) -> validRune r).
    { intros t Ht Hin. apply IH; [simpl in Hlen; lia|].
      intros b Hb. apply Hbytes. right. now apply Hin. }
    assert (Hinvalid : In r (0xFFFD :: TextAnalyzer.decodeRunes r0) ->
              validRune r).
    { intros [<-|H]; [unfold validRune; lia|].
      apply (Hrest r0); auto. }
    cbn [TextAnalyzer.decodeRunes] in Hr.
    destruct (Z.ltb_spec b0 0x80).
    { destruct Hr as [<-|Hr]; [unfold validRune; lia|].
      apply (Hrest r0); auto. }
    destruct ((0xC2 <=? b0) && (b0 <=? 0xDF)) eqn:E2.
    { destruct r0 as [|b1 r1]; [now apply Hinvalid|].
      destruct (TextAnalyzer.isCont b1); [|now apply Hinvalid].
      destruct Hr as [<-|Hr].
      - pose proof (land_low_bits b0 5 ltac:(lia)) as H0.
        pose proof (land_low_bits b1 6 ltac:(lia)) as H1.
        change (Z.ones 5) with 0x1F in H0. change (Z.ones 6) with 0x3F in H1.
        rewrite Z.shiftl_mul_pow2 by lia.
        pose proof (lor_le_add (Z.land b0 0x1F * 2 ^ 6) (Z.land b1 0x3F)
                      ltac:(lia) ltac:(lia)).
        unfold validRune. lia.
      - apply (Hrest r1); [simpl; lia | intros; now right | exact Hr]. }
    destruct ((0xE0 <=? b0) && (b0 <=? 0xEF)) eqn:E3.
    { destruct r0 as [|b1 [|b2 r2]]; try now apply Hinvalid.
      match type of Hr with
      | In _ (if ?c then _ else _) => destruct c
      end; [|now apply Hinvalid].
      destruct Hr as [<-|Hr].
      - pose proof (land_low_bits b0 4 ltac:(lia)) as H0.
        pose proof (land_low_bits b1 6 ltac:(lia)) as H1.
        pose proof (land_low_bits b2 6 ltac:(lia)) as H2.
        change (Z.ones 4) with 0x0F in H0. change (Z.ones 6) with 0x3F in H1, H2.
        rewrite !Z.shiftl_mul_pow2 by lia.
        pose proof (lor_le_add (Z.land b0 0x0F * 2 ^ 12)
                      (Z.land b1 0x3F * 2 ^ 6) ltac:(lia) ltac:(lia)).
        pose proof (lor_le_add
                      (Z.lor (Z.land b0 0x0F * 2 ^ 12) (Z.land b1 0x3F * 2 ^ 6))
                      (Z.land b2 0x3F) ltac:(lia) ltac:(lia)).
        unfold validRune. lia.
      - apply (Hrest r2); [simpl; lia | intros; right; now right | exact Hr]. }
    destruct ((0xF0 <=? b0) && (b0 <=? 0xF4)) eqn:E4; [|now apply Hinvalid].
    destruct r0 as [|b1 [|b2 [|b3 r3]]]; try now apply Hinvalid.
    match type of Hr with
    | In _ (if ?c then _ else _) => destruct c eqn:Ec
    end; [|now apply Hinvalid].
    destruct Hr as [<-|Hr].
    + apply andb_true_iff in E4. destruct E4 as [E4a E4b].
      apply Z.leb_le in E4a, E4b.
      apply andb_true_iff in Ec. destruct Ec as [Ec _].
      apply andb_true_iff in Ec. destruct Ec as [Ec _].
      apply andb_true_iff in Ec. destruct Ec as [Ec1 Ec2].
      apply Z.leb_le in Ec1, Ec2.
      assert (Hb1 : 0 <= b1 < 256) by (apply Hbytes; right; now left).
      pose proof (land_low_bits b0 3 ltac:(lia)) as H0.
      pose proof (land_low_bits b1 6 ltac:(lia)) as H1.
      pose proof (land_low_bits b2 6 ltac:(lia)) as H2.
      pose proof (land_low_bits b3 6 ltac:(lia)) as H3.
      assert (H0' : Z.land b0 0x07 = b0 - 0xF0).
      { change 0x07 with (Z.ones 3). rewrite Z.land_ones by lia.
        symmetry. apply (Z.mod_unique_pos b0 8 30). lia. lia. }
      assert (H1' : b0 = 0xF4 -> Z.land b1 0x3F <= 15).
      { intros ->. change (0xF4 =? 0xF4) with true in Ec2. cbv iota in Ec2.
        change 0x3F with (Z.ones 6). rewrite Z.land_ones by lia.
        destruct (Z.eqb_spec 0xF4 0xF0); [lia|].
        assert (b1 mod 2 ^ 6 = b1 - 128);
          [symmetry; apply (Z.mod_unique_pos b1 (2 ^ 6) 2); lia | lia]. }
      change (Z.ones 3) with 0x07 in H0.
      change (Z.ones 6) with 0x3F in H1, H2, H3.
      rewrite !Z.shiftl_mul_pow2 by lia.
      pose proof (lor_le_add (Z.land b0 0x07 * 2 ^ 18)
                    (Z.land b1 0x3F * 2 ^ 12) ltac:(lia) ltac:(lia)) as L1.
      pose proof (lor_le_add _ (Z.land b2 0x3F * 2 ^ 6)
                    (proj1 L1) ltac:(lia)) as L2.
      pose proof (lor_le_add _ (Z.land b3 0x3F) (proj1 L2) ltac:(lia)) as L3.
      unfold validRune.
      destruct (Z.eq_dec b0 0xF4) as [Hf4|Hf4].
      * specialize (H1' Hf4). lia.
      * lia.
    + apply (Hrest r3);
        [simpl; lia | intros; right; right; now right | exact Hr].
Qed.

Lemma runes_valid (text : bytes) (r : Z) :
  In r (TextAnalyzer.runes text) -> validRune r.
Proof.
  unfold TextAnalyzer.runes.
  apply (decodeRunes_valid (List.length (map byteZ text))); [lia|].
  intros b Hb. apply in_map_iff in Hb. destruct Hb as (x & <- & _).
  unfold byteZ. pose proof (Byte.to_N_bounded x). lia.
Qed.

Lemma memZ_In (x : Z) (l : list Z) : TextAnalyzer.memZ x l = true <-> In x l.
Proof.
  unfold TextAnalyzer.memZ. rewrite existsb_exists. split.
  - intros (y & Hy & Heq). apply Z.eqb_eq in Heq. now subst y.
  - intros H. exists x. split; [exact H | apply Z.eqb_refl].
Qed.

Lemma distinctZ_from (l : list Z) :
  forall acc,
    NoDup acc ->
    let keys :=
      fold_left (fun acc x => if TextAnalyzer.memZ x acc then acc else acc ++ [x]) l acc in
    NoDup keys /\ forall x, In x keys -> In x acc \/ In x l.
Proof.
  induction l as [|y l IH]; intros acc Hnd; cbn [fold_left].
  - split; [exact Hnd | auto].
  - destruct (TextAnalyzer.memZ y acc) eqn:E.
    + destruct (IH acc Hnd) as [H1 H2]. split; [exact H1|].
      intros x Hx. destruct (H2 x Hx); [now left | right; now right].
    + assert (Hnd' : NoDup (acc ++ [y])).
      { apply NoDup_app; [exact Hnd | repeat constructor; auto |].
        intros z Hz [<-|[]]. apply memZ_In in Hz. congruence. }
      destruct (IH _ Hnd') as [H1 H2]. split; [exact H1|].
      intros x Hx. destruct (H2 x Hx) as [H|H]; [|right; now right].
      apply in_app_iff in H. destruct H as [H|[<-|[]]];
        [now left | right; now left].
Qed.

Lemma distinctZ_spec (l : list Z) :
  NoDup (TextAnalyzer.distinctZ l) /\
  forall x, In x (TextAnalyzer.distinctZ l) -> In x l.
Proof.
  destruct (distinctZ_from l [] (NoDup_nil Z)) as [H1 H2].
  split; [exact H1|]. intros x Hx. destruct (H2 x Hx); [contradiction|auto].
Qed.

(** A list of distinct numbers below [bound] has at most [bound]
    members. *)
Lemma NoDup_bounded (l : list Z) (bound : Z) :
  0 <= bound -> NoDup l -> (forall x, In x l -> 0 <= x < bound) ->
  len l <= bound.
Proof.
  intros Hbound Hnd Hrange.
  assert (Hincl : incl l (map Z.of_nat (seq 0 (Z.to_nat bound)))).
  { intros x Hx. apply in_map_iff. exists (Z.to_nat x).
    specialize (Hrange x Hx). split; [lia|]. apply in_seq. lia. }
  pose proof (NoDup_incl_length Hnd Hincl) as Hlen.
  rewrite length_map, length_seq in Hlen.
  unfold len. lia.
Qed.

Lemma rowsNonPositive_spec (n : nat) :
  forall u0, rowsNonPositive n u0 = true ->
  forall u, u0 <= u < u0 + Z.of_nat n -> rowNonPositive u = true.
Proof.
  induction n as [|n IH]; intros u0 H u Hu; [lia|].
  cbn [rowsNonPositive] in H. apply andb_true_iff in H.
  destruct H as [H1 H2].
  destruct (Z.eq_dec u u0) as [->|Hne]; [exact H1|].
  apply (IH (u0 + 1) H2). lia.
Qed.

Lemma blocksNonPositive_spec (n : nat) :
  forall u0, blocksNonPositive n u0 = true ->
  forall u, u0 <= u < u0 + 1024 * Z.of_nat n -> rowNonPositive u = true.
Proof.
  induction n as [|n IH]; intros u0 H u Hu; [lia|].
  cbn [blocksNonPositive] in H. apply andb_true_iff in H.
  destruct H as [H1 H2].
  destruct (Z.lt_ge_cases u (u0 + 1024)) as [Hlt|Hge].
  - apply (rowsNonPositive_spec 1024 u0 H1).
    change (Z.of_nat 1024) with 1024. lia.
  - apply (IH (u0 + 1024) H2). lia.
Qed.

(** The test of every number of distinct marks from 16 up to the number of
    code points, 0x110000. *)
Lemma many_marks_non_positive : blocksNonPositive 1089 16 = true.
Proof. vm_compute. reflexivity. Qed.

Lemma few_marks_in_band : fewMarksInBand = true.
Proof. vm_compute. reflexivity. Qed.

Lemma interestHalves_complete (v : Z) :
  0 <= v <= 10 -> In (float64 v / 5.0 * 0.5)%float interestHalves.
Proof.
  intros Hv.
  assert (H : v = 0 \/ v = 1 \/ v = 2 \/ v = 3 \/ v = 4 \/ v = 5 \/ v = 6
              \/ v = 7 \/ v = 8 \/ v = 9 \/ v = 10) by lia.
  repeat (destruct H as [->|H]; [vm_compute; tauto|]).
  subst v. vm_compute. tauto.
Qed.

Lemma punctuationScore_in_band (u v : Z) :
  0 <= u <= 0x110000 -> 0 <= v <= 10 ->
  inBand (TextAnalyzer.punctuationScore u v) = true.
Proof.
  intros Hu Hv.
  assert (Hin : In v [0; 1; 2; 3; 4; 5; 6; 7; 8; 9; 10]) by (cbn [In]; lia).
  destruct (Z.lt_ge_cases u 16) as [Hsmall|Hlarge].
  - pose proof few_marks_in_band as H. unfold fewMarksInBand in H.
    rewrite forallb_forall in H.
    assert (Hinu : In u [0; 1; 2; 3; 4; 5; 6; 7; 8; 9; 10; 11; 12; 13; 14; 15])
      by (cbn [In]; lia).
    specialize (H u Hinu). rewrite forallb_forall in H. exact (H v Hin).
  - assert (Hrow : rowNonPositive u = true).
    { apply (blocksNonPositive_spec 1089 16 many_marks_non_positive).
      change (Z.of_nat 1089) with 1089. lia. }
    unfold rowNonPositive in Hrow. rewrite forallb_forall in Hrow.
    specialize (Hrow _ (interestHalves_complete v Hv)).
    assert (Hzero : TextAnalyzer.punctuationScore u v = 0%float)
      by (apply clamp01_nonpositive; exact Hrow).
    rewrite Hzero. vm_compute. reflexivity.
Qed.

Lemma filter_length_le {A : Type} (f : A -> bool) (l : list A) :
  (List.length (filter f l) <= List.length l)%nat.
Proof.
  induction l as [|x l IH]; simpl; [lia|]. destruct (f x); simpl; lia.
Qed.

(** The punctuation signal of any text keeps a text of otherwise neutral
    signals within the band. *)
Lemma analyzePunctuationVariety_in_band (P : Platform) (text : bytes) :
  inBand (TextAnalyzer.analyzePunctuationVariety P text) = true.
Proof.
  unfold TextAnalyzer.analyzePunctuationVariety.
  destruct (_ <? 5); [vm_compute; reflexivity|].
  apply punctuationScore_in_band.
  - split; [apply len_nonneg|].
    destruct (distinctZ_spec (filter (TextAnalyzer.IsPunct P) (TextAnalyzer.runes text)))
      as [Hnd Hin].
    apply (NoDup_bounded _ 0x110000 ltac:(lia) Hnd).
    intros x Hx. apply Hin in Hx. apply filter_In in Hx.
    destruct Hx as [Hx _]. apply runes_valid in Hx. unfold validRune in Hx.
    lia.
  - split; [apply len_nonneg|].
    pose proof (filter_length_le
                  (fun p => TextAnalyzer.memZ p (filter (TextAnalyzer.IsPunct P)
                                      (TextAnalyzer.runes text)))
                  TextAnalyzer.interestingPunct) as Hle.
    unfold len. change (List.length TextAnalyzer.interestingPunct) with 10%nat
      in Hle. lia.
Qed.

(** ** The score of short texts *)

(** C8, as stated, fails: "a. 1. 2" has one word and three sentences, so the
    sentence-variance and the repetition signal leave their fallback (both
    give 0) and the score is 0.275. *)
Lemma short_text_below_band :
  ~ (forall (P : Platform) (order : list bytes -> list bytes) (text : bytes),
       len (TextAnalyzer.tokenize text) < 3 ->
       within 0.3 0.7
         (TextAnalyzer.AIScore (TextAnalyzer.Analyze P order text)) = true).
Proof.
  intros H.
  specialize (H asciiPlatform (fun keys => keys) (lit "a. 1. 2")).
  vm_compute in H. specialize (H eq_refl). discriminate H.
Qed.

(** C8 (amended): for every text whose tokenization yields fewer than 3
    words and which splits into fewer than 3 sentences, the six low-data
    signals return the neutral 0.5, the phrase signal is 0 or 1, and the
    final AIScore lies within [0.3, 0.7], whatever the punctuation. *)
Theorem short_text_score_in_band (P : Platform)
    (order : list bytes -> list bytes) (text : bytes) :
  len (TextAnalyzer.tokenize text) < 3 ->
  len (TextAnalyzer.splitSentences P text) < 3 ->
  let result := TextAnalyzer.Analyze P order text in
  let signals := TextAnalyzer.Signals result in
  TextAnalyzer.SentenceVariance signals = 0.5%float /\
  TextAnalyzer.VocabularyRichness signals = 0.5%float /\
  TextAnalyzer.Burstiness signals = 0.5%float /\
  TextAnalyzer.WordLengthVariance signals = 0.5%float /\
  TextAnalyzer.ContractionsUsage signals = 0.5%float /\
  TextAnalyzer.RepetitionScore signals = 0.5%float /\
  (TextAnalyzer.AIPhraseScore signals = 0%float \/
   TextAnalyzer.AIPhraseScore signals = 1%float) /\
  within 0.3 0.7 (TextAnalyzer.AIScore result) = true.
Proof.
  intros Hwords Hsentences.
  pose proof (detectAIPhrases_short P text Hwords) as Hphrase.
  pose proof (analyzePunctuationVariety_in_band P text) as Hpunct.
  assert (Hsv : TextAnalyzer.analyzeSentenceVariance P text = 0.5%float).
  { unfold TextAnalyzer.analyzeSentenceVariance.
    destruct (Z.ltb_spec (len (TextAnalyzer.splitSentences P text)) 3);
      [reflexivity | lia]. }
  assert (Hvr : TextAnalyzer.analyzeVocabularyRichness P text = 0.5%float).
  { unfold TextAnalyzer.analyzeVocabularyRichness.
    destruct (Z.ltb_spec (len (TextAnalyzer.tokenize text)) 10);
      [reflexivity | lia]. }
  assert (Hb : TextAnalyzer.analyzeBurstiness P order text = 0.5%float).
  { unfold TextAnalyzer.analyzeBurstiness.
    destruct (Z.ltb_spec (len (TextAnalyzer.tokenize text)) 20);
      [reflexivity | lia]. }
  assert (Hwl : TextAnalyzer.analyzeWordLengthVariance text = 0.5%float).
  { unfold TextAnalyzer.analyzeWordLengthVariance.
    destruct (Z.ltb_spec (len (TextAnalyzer.tokenize text)) 10);
      [reflexivity | lia]. }
  assert (Hc : TextAnalyzer.analyzeContractions P text = 0.5%float).
  { unfold TextAnalyzer.analyzeContractions.
    destruct (Z.ltb_spec (len (TextAnalyzer.tokenize text)) 20);
      [reflexivity | lia]. }
  assert (Hr : TextAnalyzer.analyzeRepetition P text = 0.5%float).
  { unfold TextAnalyzer.analyzeRepetition.
    destruct (Z.ltb_spec (len (TextAnalyzer.splitSentences P text)) 3);
      [reflexivity | lia]. }
  unfold TextAnalyzer.Analyze.
  destruct (TextAnalyzer.detectAIPhrases P text) as [phrase detected].
  cbn [fst] in Hphrase.
  cbn [TextAnalyzer.Signals TextAnalyzer.AIScore
       TextAnalyzer.SentenceVariance TextAnalyzer.VocabularyRichness
       TextAnalyzer.Burstiness TextAnalyzer.WordLengthVariance
       TextAnalyzer.ContractionsUsage TextAnalyzer.RepetitionScore
       TextAnalyzer.AIPhraseScore].
  rewrite Hsv, Hvr, Hb, Hwl, Hc, Hr.
  repeat (split; [reflexivity|]). split; [exact Hphrase|].
  unfold inBand in Hpunct. apply andb_true_iff in Hpunct.
  destruct Hpunct as [H0 H1].
  destruct Hphrase as [-> | ->]; [exact H0 | exact H1].
Qed.

Lemma short_text_score_in_band_witness :
  within 0.3 0.7
    (TextAnalyzer.AIScore
       (TextAnalyzer.Analyze asciiPlatform (fun keys => keys)
          (lit "Furthermore?! (1) - 2; 3: 4, 5"))) = true.
Proof.
  apply (short_text_score_in_band asciiPlatform (fun keys => keys)
           (lit "Furthermore?! (1) - 2; 3: 4, 5")).
  - vm_compute. reflexivity.
  - vm_compute. reflexivity.
Defined.
